(** * README generator: a shallow embedding of [automation/generate_readme.py]

    The script discovers project folders under a root directory, collects the
    text files of each folder, assembles a bounded prompt, asks a
    text-generation service for a README and writes it to disk.

    Modelling conventions.
    - A Python [str] is a [string]; [len] is its number of characters, as a [Z].
    - A [pathlib.Path] is the list of its [parts]; [name] is the last part.
    - The file system is a tree of regular files and directories (symbolic
      links are outside the model).  A file carries what the script observes
      of it: [stat().st_size], which a listed file always answers, and the
      outcome of opening and reading it as UTF-8 text.  The tree does not
      change during a run: the only writes are the README files, which the
      collector ignores.
    - [print], the call to the generation service and the write of a README
      are events appended to a log, in the order the script performs them.
    - The check of the API key at import time precedes [main] and is not
      part of it.
    - An exception is either an instance of [Exception], which the script's
      [except Exception] clauses catch, or of a class outside it
      ([KeyboardInterrupt], [SystemExit]), which they let through.  The
      latter are modelled where the script blocks, at the construction of
      the model and at the call to the generation service; operations on
      files raise instances of [Exception] only.
    - What the script cannot decide by itself (the media type guessed by
      [mimetypes], the answers of the generation service, whether a README can
      be written) is an oracle of the environment. *)

From Stdlib Require Import ZArith List String Ascii Bool Lia.
From Stdlib Require Import DecimalString.
Import ListNotations.

Open Scope string_scope.
Open Scope list_scope.
Open Scope Z_scope.

Infix "+:+" := String.append (at level 60, right associativity).

(** ** Python strings *)

Definition LF : string := String (ascii_of_nat 10) EmptyString.

Definition len (s : string) : Z := Z.of_nat (String.length s).

(** [s[:n]] for [0 <= n]. *)
Fixpoint slice_to (n : nat) (s : string) : string :=
  match n, s with
  | O, _ => EmptyString
  | _, EmptyString => EmptyString
  | S n', String c s' => String c (slice_to n' s')
  end.

(** [s[n:]] for [0 <= n]. *)
Fixpoint slice_from (n : nat) (s : string) : string :=
  match n, s with
  | O, _ => s
  | _, EmptyString => EmptyString
  | S n', String _ s' => slice_from n' s'
  end.

(** [s.startswith(p)]. *)
Definition startswith (s p : string) : bool := String.prefix p s.

(** [s.rfind(c)] for a one-character [c]: the highest index, or [-1]. *)
Fixpoint rfind (s : string) (c : ascii) : Z :=
  match s with
  | EmptyString => -1
  | String a s' =>
      let i := rfind s' c in
      if 0 <=? i then i + 1
      else if Ascii.eqb a c then 0 else -1
  end.

Definition lower_char (c : ascii) : ascii :=
  let n := N_of_ascii c in
  if ((65 <=? n) && (n <=? 90))%N then ascii_of_N (n + 32) else c.

(** [s.lower()]. *)
Fixpoint lower (s : string) : string :=
  match s with
  | EmptyString => EmptyString
  | String c s' => String (lower_char c) (lower s')
  end.

(** [sep.join(l)]. *)
Fixpoint join (sep : string) (l : list string) : string :=
  match l with
  | [] => EmptyString
  | [x] => x
  | x :: l' => x +:+ sep +:+ join sep l'
  end.

(** [str(n)] for a non-negative integer. *)
Definition str_of_int (n : Z) : string :=
  NilEmpty.string_of_uint (N.to_uint (Z.to_N n)).

(** [x in l] for a list (or set) of strings. *)
Definition str_in (x : string) (l : list string) : bool :=
  existsb (String.eqb x) l.

(** [any(f(x) for x in l)]. *)
Definition any {A : Type} (f : A -> bool) (l : list A) : bool := existsb f l.

(** ** [pathlib.Path] *)

Definition Path : Type := list string.

Definition parts (p : Path) : list string := p.

(** [p.name]: the final component. *)
Definition name (p : Path) : string := last p EmptyString.

(** [p / child]. *)
Definition joinpath (p : Path) (child : string) : Path := p ++ [child].

Infix "//" := joinpath (at level 40, left associativity).

(** [str(p)] on a POSIX system: the root part, "/" or "//", is not followed
    by a separator, and the empty path prints as ".". *)
Definition str_of_path (p : Path) : string :=
  match p with
  | [] => "."
  | r :: rest =>
      if String.eqb r "/" || String.eqb r "//" then r +:+ join "/" rest
      else join "/" p
  end.

(** [s.endswith(c)] for a one-character [c]. *)
Fixpoint endswith_char (s : string) (c : ascii) : bool :=
  match s with
  | EmptyString => false
  | String a EmptyString => Ascii.eqb a c
  | String _ s' => endswith_char s' c
  end.

(** [os.path.join(a, b)] on a POSIX system. *)
Definition os_path_join (a b : string) : string :=
  if startswith b "/" then b
  else if String.eqb a EmptyString || endswith_char a "/"%char then a +:+ b
  else a +:+ "/" +:+ b.

(** [p.suffix]: the part of the name from its last dot on, when that dot is
    neither the first nor the last character of the name. *)
Definition suffix (p : Path) : string :=
  let nm := name p in
  let i := rfind nm "."%char in
  if (0 <? i) && (i <? len nm - 1) then slice_from (Z.to_nat i) nm
  else EmptyString.

(** ** Exceptions and control flow *)

(** An exception, as far as the script looks at it: [str(e)]. *)
Inductive Exception : Type := Exc (description : string).

Definition str_of_exc (e : Exception) : string :=
  match e with Exc d => d end.

(** The outcome of a computation that may raise. *)
Inductive result (A : Type) : Type :=
| Ok (a : A)
| Raise (e : Exception).
Arguments Ok {A} a.
Arguments Raise {A} e.

(** Whatever a call may raise: an instance of [Exception], or of a class
    outside it ([KeyboardInterrupt], [SystemExit], [GeneratorExit]), of which
    the model keeps a description. *)
Inductive BaseException : Type :=
| OfException (e : Exception)
| NotException (description : string).

(** The outcome of a computation that may raise anything. *)
Inductive outcome (A : Type) : Type :=
| Returns (a : A)
| Raises (b : BaseException).
Arguments Returns {A} a.
Arguments Raises {A} b.

(** One iteration of a [for] loop either falls through to the next item
    ([continue] included) or leaves the loop with [break]. *)
Inductive ctl (S : Type) : Type :=
| Next (s : S)
| Break (s : S).
Arguments Next {S} s.
Arguments Break {S} s.

Fixpoint for_in {A S : Type} (l : list A) (body : A -> S -> ctl S) (s : S) : S :=
  match l with
  | [] => s
  | x :: l' =>
      match body x s with
      | Next s' => for_in l' body s'
      | Break s' => s'
      end
  end.

(** ** Observable events *)

Inductive Event : Type :=
| Print (line : string)
| GenerateContent (prompt : string)
| WriteFile (path : Path) (content : string).

Definition Log : Type := list Event.

Definition print (line : string) (out : Log) : Log := out ++ [Print line].

(** ** File system *)

#[local] Set Warnings "-register-all".

Inductive node : Type :=
| File (st_size : Z) (read : result string)
| Dir (entries : list (string * node)).

Definition is_dir (n : node) : bool :=
  match n with Dir _ => true | File _ _ => false end.

(** [(d / child).exists()] for a directory node [d]. *)
Definition has_entry (d : node) (child : string) : bool :=
  match d with
  | Dir entries => existsb (fun e => String.eqb (fst e) child) entries
  | File _ _ => false
  end.

(** ** Constants *)

Definition IGNORE_FOLDERS : list string :=
  [".git"; "automation"; "__pycache__"; ".stopautomation"].
Definition IGNORE_FILES : list string := ["README.md"; ".env"].
Definition STOP_AUTOMATION_FOLDER : string := ".stopautomation".
Definition MAX_FILE_SIZE : Z := 100000.
Definition MAX_CONTENT_LENGTH : Z := 30000.

(** ** [should_ignore]

    [path_is_dir] is the answer of [path.is_dir()] for the node [path]
    denotes. *)
Definition should_ignore (path : Path) (path_is_dir : bool) : bool :=
  if str_in (name path) IGNORE_FOLDERS || str_in (name path) IGNORE_FILES then true
  else if path_is_dir && any (fun part => str_in part IGNORE_FOLDERS) (parts path) then true
  else false.

(** ** [is_text_file] *)

Definition text_extensions : list string :=
  [".py"; ".js"; ".ts"; ".html"; ".css"; ".md"; ".txt"; ".json"; ".xml";
   ".yaml"; ".yml"; ".sh"; ".bat"; ".ps1"].

Section Classifier.

(** [mimetypes.guess_type(s)[0]]. *)
Variable guess_type : string -> option string.

Definition is_text_file (file_path : Path) : bool :=
  let mime_type := guess_type (str_of_path file_path) in
  match mime_type with
  | Some m =>
      if negb (String.eqb m EmptyString) && startswith m "text/" then true
      else str_in (lower (suffix file_path)) text_extensions
  | None => str_in (lower (suffix file_path)) text_extensions
  end.

End Classifier.

(** ** Resolving paths

    The file system is the tree [fs_tree] mounted at the path [fs_root]. *)

Record FS : Type := { fs_root : Path; fs_tree : node }.

Fixpoint lookup (entries : list (string * node)) (child : string) : option node :=
  match entries with
  | [] => None
  | (nm, n) :: rest => if String.eqb nm child then Some n else lookup rest child
  end.

Fixpoint resolve (n : node) (rel : Path) : option node :=
  match rel with
  | [] => Some n
  | c :: rel' =>
      match n with
      | Dir entries =>
          match lookup entries c with
          | Some n' => resolve n' rel'
          | None => None
          end
      | File _ _ => None
      end
  end.

Fixpoint strip_prefix (root p : Path) : option Path :=
  match root, p with
  | [], _ => Some p
  | r :: root', c :: p' => if String.eqb r c then strip_prefix root' p' else None
  | _ :: _, [] => None
  end.

Definition node_at (fs : FS) (p : Path) : option node :=
  match strip_prefix (fs_root fs) p with
  | Some rel => resolve (fs_tree fs) rel
  | None => None
  end.

(** [os.scandir(p)]: the entries of the directory at [p], each with the node
    it denotes. *)
Definition scandir (fs : FS) (p : Path) : list (string * node) :=
  match node_at fs p with
  | Some (Dir entries) => entries
  | _ => []
  end.

(** [os.walk(top)], top-down: every directory under [top] with its entries;
    a directory is yielded before its subdirectories, which follow in
    listing order. *)
Fixpoint walk (top : Path) (n : node) : list (Path * list (string * node)) :=
  match n with
  | File _ _ => []
  | Dir entries =>
      (top, entries)
        :: flat_map (fun e => let '(nm, c) := e in walk (top // nm) c) entries
  end.

Definition os_walk (fs : FS) (top : Path) : list (Path * list (string * node)) :=
  match node_at fs top with
  | Some n => walk top n
  | None => []
  end.

(** The [files] component of what [os.walk] yields for a directory. *)
Definition regular_files (entries : list (string * node))
  : list (string * (Z * result string)) :=
  flat_map (fun e => match snd e with
                     | File st_size read => [(fst e, (st_size, read))]
                     | Dir _ => []
                     end) entries.

(** ** [find_project_folders]

    The loop runs over what [os.scandir(root_dir)] yields, in its order. *)

(** [item.path], the string [os.scandir] gives an entry: the scanned path
    joined with the entry's name.  [pathlib.Path(item.path)] is
    [root_dir // name]. *)
Definition item_path_str (root_dir : Path) (item : string * node) : string :=
  os_path_join (str_of_path root_dir) (fst item).

Definition find_project_folders_body (root_dir : Path) (item : string * node)
    (st : list Path * Log) : ctl (list Path * Log) :=
  let '(project_folders, out) := st in
  let item_path := root_dir // fst item in
  if is_dir (snd item) && negb (should_ignore item_path (is_dir (snd item))) then
    let stop_file := STOP_AUTOMATION_FOLDER in
    if negb (has_entry (snd item) stop_file) then
      Next (project_folders ++ [item_path], out)
    else
      Next (project_folders,
            print ("Skipping folder " +:+ item_path_str root_dir item +:+ " due to "
                   +:+ STOP_AUTOMATION_FOLDER +:+ " folder.") out)
  else Next (project_folders, out).

Definition find_project_folders (fs : FS) (root_dir : Path) (out : Log)
  : list Path * Log :=
  for_in (scandir fs root_dir) (find_project_folders_body root_dir) ([], out).

(** ** [read_project_files] *)

(** A [dict] with string keys: insertion-ordered, one entry per key. *)
Definition dict : Type := list (string * string).

Fixpoint dict_get (d : dict) (k : string) : option string :=
  match d with
  | [] => None
  | (k', v) :: d' => if String.eqb k' k then Some v else dict_get d' k
  end.

(** [d[k] = v]: an existing key keeps its position. *)
Fixpoint dict_set (k v : string) (d : dict) : dict :=
  match d with
  | [] => [(k, v)]
  | (k', v') :: d' =>
      if String.eqb k' k then (k, v) :: d' else (k', v') :: dict_set k v d'
  end.

Definition truncation_marker : string :=
  LF +:+ "... (content truncated due to length)".

Section Collector.

Variable guess_type : string -> option string.

(** The body of [for file in files], for a regular file. *)
Definition read_file_body (current_dir : Path)
    (file : string * (Z * result string)) (st : dict * Log) : ctl (dict * Log) :=
  let '(file_contents, out) := st in
  let '(file_name, (st_size, read)) := file in
  let file_path := current_dir // file_name in
  if negb (should_ignore file_path false) && is_text_file guess_type file_path then
    if st_size >? MAX_FILE_SIZE then
      Next (file_contents,
            print ("File " +:+ str_of_path file_path +:+ " is too large, skipping...") out)
    else
      match read with
      | Ok content =>
          let content :=
            if len content >? MAX_CONTENT_LENGTH
            then slice_to (Z.to_nat MAX_CONTENT_LENGTH) content +:+ truncation_marker
            else content in
          Next (dict_set (str_of_path file_path) content file_contents, out)
      | Raise e =>
          Next (file_contents,
                print ("Error reading file " +:+ str_of_path file_path +:+ ": "
                       +:+ str_of_exc e) out)
      end
  else Next (file_contents, out).

(** The body of [for root, _, files in os.walk(project_folder)]. *)
Definition read_dir_body (item : Path * list (string * node))
    (st : dict * Log) : ctl (dict * Log) :=
  let '(root, entries) := item in
  let current_dir := root in
  if should_ignore current_dir true then Next st
  else Next (for_in (regular_files entries) (read_file_body current_dir) st).

Definition read_project_files (fs : FS) (project_folder : Path) (out : Log)
  : dict * Log :=
  for_in (os_walk fs project_folder) read_dir_body ([], out).

End Collector.

(** ** [generate_readme_with_gemini] *)

(** [LF.join(lines)]: the text of a multi-line literal. *)
Definition lines (l : list string) : string := join LF l.

Definition base_prompt : string :=
  lines
    [ "Please analyze the following project files and generate a comprehensive README.md file.";
      "        The README should be in Markdown format with inline HTML for interactive elements.";
      "        ";
      "        Required sections:";
      "        1. Project Overview - A clear description of what the project does";
      "        2. Features - List of main features and capabilities";
      "        3. Installation - How to install and set up the project";
      "        4. Usage - How to use the project with examples";
      "        5. Example Code Snippets - If applicable, show some code examples";
      "        6. License - Include license information if available";
      "        ";
      "        Use HTML elements like <details> for collapsible sections to make it interactive.";
      "        Make the README professional, well-structured, and easy to understand.";
      "        ";
      "        Project files:";
      "        " ].

Definition file_block (file_path content : string) : string :=
  LF +:+ LF +:+ "File: " +:+ file_path +:+ LF +:+ "Content:" +:+ LF +:+ content +:+ LF.

Definition no_content_notice : string :=
  LF +:+ LF +:+
  "No file contents were included in the prompt due to size limitations or no relevant files being found.".

Definition skipped_notice : string :=
  LF +:+ LF +:+
  "... (some file contents were skipped due to total prompt length limitations)".

Definition error_heading : string := "# Error Generating README".

Definition error_document (description : string) : string :=
  error_heading +:+ LF +:+ LF +:+
  "An error occurred while generating the README: " +:+ description.

(** [sum(l)]. *)
Definition sum (l : list Z) : Z := fold_right Z.add 0 l.

Definition skip_warning (file_path : string) : string :=
  "Warning: Skipping file " +:+ file_path +:+
  " because adding its content would exceed the total prompt length limit.".

(** The body of [for file_path, content in file_contents.items()]. *)
Definition add_file_body (item : string * string) (st : string * Log)
  : ctl (string * Log) :=
  let '(prompt, out) := st in
  let '(file_path, content) := item in
  let block := file_block file_path content in
  if len prompt + len block >? MAX_CONTENT_LENGTH then
    Break (prompt, print (skip_warning file_path) out)
  else Next (prompt +:+ block, out).

(** The prompt as it stands when the loop over the files is left. *)
Definition add_files (file_contents : dict) (out : Log) : string * Log :=
  for_in file_contents add_file_body (base_prompt, out).

(** The notice appended after the loop, if any. *)
Definition add_notice (file_contents : dict) (prompt : string) : string :=
  if len prompt =? len base_prompt then prompt +:+ no_content_notice
  else if len prompt <?
          sum (map (fun item => len (file_block (fst item) (snd item))) file_contents)
          + len base_prompt
       then prompt +:+ skipped_notice
       else prompt.

(** The prompt handed to [model.generate_content]. *)
Definition build_prompt (file_contents : dict) (out : Log) : string * Log :=
  let '(prompt, out) := add_files file_contents out in
  (add_notice file_contents prompt, out).

(** The environment of a run: the history so far determines its answers. *)
Record Env : Type := {
  (** [mimetypes.guess_type(s)[0]] *)
  env_guess_type : string -> option string;
  (** [genai.GenerativeModel(...)]: [Some b] when the constructor raises *)
  env_model : Log -> option BaseException;
  (** [model.generate_content(prompt).text], or what either raises *)
  env_generate : Log -> string -> outcome string;
  (** writing a text to a path: [Some e] when [open] or [write] raises *)
  env_write : Log -> Path -> string -> option Exception
}.

Section Generator.

Variable env : Env.

(** The [try] block. *)
Definition generate_readme_try (file_contents : dict) (out : Log)
  : outcome string * Log :=
  match env_model env out with
  | Some b => (Raises b, out)
  | None =>
      let '(prompt, out) := build_prompt file_contents out in
      let out := out ++ [GenerateContent prompt] in
      match env_generate env out prompt with
      | Raises b => (Raises b, out)
      | Returns text =>
          if String.eqb text EmptyString then
            (Returns (error_document
                        ("Received empty response from Gemini API. Prompt length: "
                         +:+ str_of_int (len prompt))),
             print "Gemini API returned an empty response even after prompt truncation." out)
          else (Returns text, out)
      end
  end.

(** [except Exception as e] catches the instances of [Exception]; anything
    else leaves the function. *)
Definition generate_readme_with_gemini (file_contents : dict) (out : Log)
  : outcome string * Log :=
  match generate_readme_try file_contents out with
  | (Returns readme, out) => (Returns readme, out)
  | (Raises (OfException e), out) =>
      (Returns (error_document (str_of_exc e)),
       print ("Error generating README with Gemini: " +:+ str_of_exc e) out)
  | (Raises (NotException description), out) =>
      (Raises (NotException description), out)
  end.

(** ** [save_readme] *)

Definition save_readme (project_folder : Path) (readme_content : string)
    (out : Log) : Log :=
  let readme_path := project_folder // "README.md" in
  match env_write env out readme_path readme_content with
  | None =>
      print ("README.md generated successfully in " +:+ str_of_path project_folder)
            (out ++ [WriteFile readme_path readme_content])
  | Some e =>
      print ("Error saving README.md to " +:+ str_of_path project_folder +:+ ": "
             +:+ str_of_exc e) out
  end.

(** ** [main] *)

Variable fs : FS.

(** The body of [for project_folder in project_folders].  An exception that
    leaves the client leaves [main] too: the loop ends there. *)
Definition main_body (project_folder : Path) (out : Log) : ctl Log :=
  let out := print ("Processing folder: " +:+ str_of_path project_folder) out in
  let '(file_contents, out) :=
    read_project_files (env_guess_type env) fs project_folder out in
  match file_contents with
  | _ :: _ =>
      match generate_readme_with_gemini file_contents out with
      | (Returns readme_content, out) =>
          Next (save_readme project_folder readme_content out)
      | (Raises _, out) => Break out
      end
  | [] =>
      Next (print ("No relevant files found in " +:+ str_of_path project_folder
                   +:+ ". Skipping README generation.") out)
  end.

(** [root_directory] is where the tree of [fs] is mounted.  The result is
    the log of the run, up to the point where it ends. *)
Definition main : Log :=
  let root_directory := fs_root fs in
  let '(project_folders, out) := find_project_folders fs root_directory [] in
  match project_folders with
  | [] => print "No valid project folders found." out
  | _ :: _ => for_in project_folders main_body out
  end.

End Generator.

(** * Vocabulary of the properties *)

(** The state a loop iteration hands on, whichever way it ends. *)
Definition ctl_state {S : Type} (c : ctl S) : S :=
  match c with Next s => s | Break s => s end.

(** [c * n]: a text of [n] copies of the character [c]. *)
Fixpoint copies (c : ascii) (n : nat) : string :=
  match n with
  | O => EmptyString
  | S n' => String c (copies c n')
  end.

Definition str_mul (c : ascii) (n : Z) : string := copies c (Z.to_nat n).

(** The first line of a text: everything before its first line feed. *)
Fixpoint first_line (s : string) : string :=
  match s with
  | EmptyString => EmptyString
  | String c s' =>
      if Ascii.eqb c (ascii_of_nat 10) then EmptyString else String c (first_line s')
  end.

(** [sub in s]. *)
Definition contains (s sub : string) : bool :=
  match String.index 0 sub s with
  | Some _ => true
  | None => false
  end.

(** The formatted blocks of a run of entries, one after the other. *)
Fixpoint blocks (l : dict) : string :=
  match l with
  | [] => EmptyString
  | (file_path, content) :: l' => file_block file_path content +:+ blocks l'
  end.

(** The cumulative formatted size of a map, as the script computes it. *)
Definition formatted_size (file_contents : dict) : Z :=
  sum (map (fun item => len (file_block (fst item) (snd item))) file_contents).

(** The files the collector considers, in the order it meets them: the
    regular files of the walked directories that are not ignored, whose own
    path is not ignored and which are classified as text.  Each comes with
    its path, its size and the outcome of reading it. *)
Definition considered (guess_type : string -> option string) (current_dir : Path)
    (file : string * (Z * result string)) : bool :=
  negb (should_ignore (current_dir // fst file) false)
  && is_text_file guess_type (current_dir // fst file).

Definition considered_in (guess_type : string -> option string)
    (item : Path * list (string * node)) : list (Path * (Z * result string)) :=
  if should_ignore (fst item) true then []
  else map (fun file => (fst item // fst file, snd file))
           (filter (considered guess_type (fst item)) (regular_files (snd item))).

Definition considered_files (guess_type : string -> option string) (fs : FS)
    (project_folder : Path) : list (Path * (Z * result string)) :=
  flat_map (considered_in guess_type) (os_walk fs project_folder).

(** What the collector stores for a considered file, if anything. *)
Definition stored (file : Path * (Z * result string)) : option string :=
  let '(_, (st_size, read)) := file in
  if st_size >? MAX_FILE_SIZE then None
  else match read with
       | Ok content =>
           Some (if len content >? MAX_CONTENT_LENGTH
                 then slice_to (Z.to_nat MAX_CONTENT_LENGTH) content
                      +:+ truncation_marker
                 else content)
       | Raise _ => None
       end.

Definition store (d : dict) (file : Path * (Z * result string)) : dict :=
  match stored file with
  | Some content => dict_set (str_of_path (fst file)) content d
  | None => d
  end.

(** Every considered file has a path string of its own. *)
Definition unique_paths (files : list (Path * (Z * result string))) : Prop :=
  NoDup (map (fun file => str_of_path (fst file)) files).

(** Equality of maps, decided entry by entry. *)
Fixpoint dict_eqb (a b : dict) : bool :=
  match a, b with
  | [], [] => true
  | (k, v) :: a', (k', v') :: b' =>
      String.eqb k k' && String.eqb v v' && dict_eqb a' b'
  | _, _ => false
  end.

(** A log grows by diagnostics only. *)
Definition only_prints (before after : Log) : Prop :=
  exists msgs : list string, after = before ++ map Print msgs.

(** No two entries of a directory listing share a name. *)
Definition unique_names (entries : list (string * node)) : Prop :=
  NoDup (map fst entries).

(** The test a child of the root passes to become a project folder. *)
Definition accepted (item : string * node) : bool :=
  is_dir (snd item)
  && negb (str_in (fst item) IGNORE_FOLDERS)
  && negb (str_in (fst item) IGNORE_FILES)
  && negb (has_entry (snd item) STOP_AUTOMATION_FOLDER).

(** The test the loop of [find_project_folders] applies to an entry. *)
Definition kept (root_dir : Path) (item : string * node) : bool :=
  is_dir (snd item)
  && negb (should_ignore (root_dir // fst item) (is_dir (snd item)))
  && negb (has_entry (snd item) STOP_AUTOMATION_FOLDER).

(** The entry the collector makes for a considered file, if any. *)
Definition entry_of (file : Path * (Z * result string)) : list (string * string) :=
  match stored file with
  | Some content => [(str_of_path (fst file), content)]
  | None => []
  end.

(** The line the collector prints for a considered file, if any. *)
Definition diagnostic (file : Path * (Z * result string)) : list string :=
  let '(file_path, (st_size, read)) := file in
  if st_size >? MAX_FILE_SIZE then
    ["File " +:+ str_of_path file_path +:+ " is too large, skipping..."]
  else match read with
       | Ok _ => []
       | Raise e =>
           ["Error reading file " +:+ str_of_path file_path +:+ ": " +:+ str_of_exc e]
       end.

(** The children of the root the discoverer reports as stopped: directories
    that pass the ignore test and hold an entry named like the stop marker. *)
Definition stopped (root_dir : Path) (item : string * node) : bool :=
  is_dir (snd item)
  && negb (should_ignore (root_dir // fst item) (is_dir (snd item)))
  && has_entry (snd item) STOP_AUTOMATION_FOLDER.

Definition skip_message (root_dir : Path) (item : string * node) : string :=
  "Skipping folder " +:+ item_path_str root_dir item +:+ " due to "
  +:+ STOP_AUTOMATION_FOLDER +:+ " folder.".

(** The calls to the generation service recorded in a log, and the paths it
    records as written. *)
Definition is_call (e : Event) : bool :=
  match e with GenerateContent _ => true | _ => false end.

Definition count_calls (log : Log) : nat := List.length (filter is_call log).

Definition written_paths (log : Log) : list Path :=
  flat_map (fun e => match e with WriteFile p _ => [p] | _ => [] end) log.

Definition processing_line (project_folder : Path) : string :=
  "Processing folder: " +:+ str_of_path project_folder.

(** An environment in which nothing outside [Exception] is ever raised. *)
Definition uninterrupted (env : Env) : Prop :=
  (forall log description, env_model env log <> Some (NotException description))
  /\ (forall log prompt description,
        env_generate env log prompt <> Raises (NotException description)).

(** The events of the pass over one project folder: they start with the
    folder's progress line and hold at most one call to the service and at
    most one write, of the README of that folder. *)
Definition folder_segment (project_folder : Path) (segment : Log) : Prop :=
  (exists rest, segment = Print (processing_line project_folder) :: rest)
  /\ (count_calls segment <= 1)%nat
  /\ (List.length (written_paths segment) <= 1)%nat
  /\ (forall q, In q (written_paths segment) -> q = project_folder // "README.md").

(** ** The discoverer as the specification words it

    Immediate child directories whose name is not an ignored folder name and
    which have no stop-marker subdirectory. *)

Definition has_stop_marker_subdir (n : node) : bool :=
  match n with
  | Dir entries =>
      existsb (fun e => String.eqb (fst e) STOP_AUTOMATION_FOLDER && is_dir (snd e))
              entries
  | File _ _ => false
  end.

Definition discover_spec (root_dir : Path) (listing : list (string * node))
  : list Path :=
  map (fun item => root_dir // fst item)
      (filter (fun item => is_dir (snd item)
                           && negb (str_in (fst item) IGNORE_FOLDERS)
                           && negb (has_stop_marker_subdir (snd item)))
              listing).

(** ** Concrete inputs *)

Definition ascii_a : ascii := "a"%char.

(** A project whose first file fills the prompt to the cap exactly. *)
Definition full_prompt_files : dict :=
  [ ("/repo/proj/a.py", str_mul ascii_a 29141); ("/repo/proj/b.py", "x") ].

Definition full_prompt_fs : FS :=
  {| fs_root := ["/"; "repo"];
     fs_tree :=
       Dir [ ("proj",
              Dir [ ("a.py", File 29141 (Ok (str_mul ascii_a 29141)));
                    ("b.py", File 1 (Ok "x")) ]) ] |}.

(** A project made of one file too long for the prompt. *)
Definition oversized_files : dict :=
  [ ("/repo/proj/big.txt", str_mul ascii_a 30000) ].

(** A project holding one text of 40,000 characters. *)
Definition long_text_fs : FS :=
  {| fs_root := ["/"; "repo"];
     fs_tree :=
       Dir [ ("proj", Dir [ ("data.txt", File 40000 (Ok (str_mul ascii_a 40000))) ]) ] |}.

(** A project holding a text of exactly [MAX_FILE_SIZE] bytes and a text one
    byte longer. *)
Definition cap_fs : FS :=
  {| fs_root := ["/"; "repo"];
     fs_tree :=
       Dir [ ("proj",
              Dir [ ("at_cap.txt", File 100000 (Ok (str_mul ascii_a 100000)));
                    ("over_cap.txt", File 100001 (Ok (str_mul ascii_a 100001)));
                    ("app.py", File 8 (Ok "print(1)")) ]) ] |}.

(** A small file followed by one too long for the prompt. *)
Definition mixed_files : dict :=
  [ ("/repo/proj/a.py", "x"); ("/repo/proj/big.txt", str_mul ascii_a 30000) ].

Definition no_guess : string -> option string := fun _ => None.

(** A root with a project stopped by a plain file, and one named like an
    ignored file. *)
Definition marker_file_fs : FS :=
  {| fs_root := ["/"; "repo"];
     fs_tree :=
       Dir [ ("webapp",
              Dir [ (".stopautomation", File 0 (Ok ""));
                    ("app.py", File 8 (Ok "print(1)")) ]) ] |}.

Definition env_dir_fs : FS :=
  {| fs_root := ["/"; "repo"];
     fs_tree :=
       Dir [ (".env", Dir [ ("settings.py", File 5 (Ok "X = 1")) ]) ] |}.

Definition two_projects_fs : FS :=
  {| fs_root := ["/"; "repo"];
     fs_tree :=
       Dir [ (".git", Dir [ ("config", File 3 (Ok "abc")) ]);
             ("good_project", Dir [ ("app.py", File 8 (Ok "print(1)")) ]);
             ("docs", Dir [ ("logo.png", File 4 (Raise (Exc "invalid start byte"))) ]);
             ("notes.txt", File 2 (Ok "hi")) ] |}.

(** A project with a file that cannot be decoded next to one that can. *)
Definition unreadable_fs : FS :=
  {| fs_root := ["/"; "repo"];
     fs_tree :=
       Dir [ ("proj",
              Dir [ ("notes.txt", File 4 (Raise (Exc "invalid start byte")));
                    ("app.py", File 8 (Ok "print(1)")) ]) ] |}.

(** A service that answers every request with the same document. *)
Definition ok_env : Env :=
  {| env_guess_type := no_guess;
     env_model := fun _ => None;
     env_generate := fun _ _ => Returns "# Title";
     env_write := fun _ _ _ => None |}.

(** A service whose answer is empty. *)
Definition empty_env : Env :=
  {| env_guess_type := no_guess;
     env_model := fun _ => None;
     env_generate := fun _ _ => Returns EmptyString;
     env_write := fun _ _ _ => None |}.

(** A run interrupted from the keyboard while the service is being called. *)
Definition interrupted_env : Env :=
  {| env_guess_type := no_guess;
     env_model := fun _ => None;
     env_generate := fun _ _ => Raises (NotException "KeyboardInterrupt");
     env_write := fun _ _ _ => None |}.

(** A root given as the current directory, with a stopped project. *)
Definition relative_root_fs : FS :=
  {| fs_root := [];
     fs_tree :=
       Dir [ ("webapp", Dir [ (".stopautomation", Dir []) ]) ] |}.

(** A service that refuses every request. *)
Definition failing_env : Env :=
  {| env_guess_type := no_guess;
     env_model := fun _ => None;
     env_generate := fun _ _ => Raises (OfException (Exc "401 API key not valid"));
     env_write := fun _ _ _ => None |}.

(** * Sanity checks on concrete inputs *)

Example base_prompt_length : len base_prompt = 825.
Proof. reflexivity. Qed.

Example no_content_notice_length : len no_content_notice = 104.
Proof. reflexivity. Qed.

Example skipped_notice_length : len skipped_notice = 78.
Proof. reflexivity. Qed.

Example truncation_marker_length : len truncation_marker = 38.
Proof. reflexivity. Qed.

(** One good project next to an ignored folder, a folder without text files
    and a stray file: one call to the service, one README written. *)
Example run_two_projects :
  main ok_env two_projects_fs
  = [ Print "Processing folder: /repo/good_project";
      GenerateContent
        (base_prompt +:+ file_block "/repo/good_project/app.py" "print(1)");
      WriteFile ["/"; "repo"; "good_project"; "README.md"] "# Title";
      Print "README.md generated successfully in /repo/good_project";
      Print "Processing folder: /repo/docs";
      Print "No relevant files found in /repo/docs. Skipping README generation." ].
Proof. vm_compute. reflexivity. Qed.

(** A stopped project: no call to the service, nothing written. *)
Example run_stopped_project :
  main ok_env marker_file_fs
  = [ Print "Skipping folder /repo/webapp due to .stopautomation folder.";
      Print "No valid project folders found." ].
Proof. vm_compute. reflexivity. Qed.

(** The files considered in a project, with what is observed of each. *)
Example considered_files_of_good_project :
  considered_files no_guess two_projects_fs ["/"; "repo"; "good_project"]
  = [ (["/"; "repo"; "good_project"; "app.py"], (8, Ok "print(1)")) ].
Proof. reflexivity. Qed.

(** The stopped folder is reported under the string [os.scandir] gives it:
    relative to a root given as the current directory, it starts with "./". *)
Example skip_line_under_relative_root :
  find_project_folders relative_root_fs [] []
  = ([], [Print "Skipping folder ./webapp due to .stopautomation folder."]).
Proof. reflexivity. Qed.

Example os_path_join_examples :
  os_path_join "/repo" "webapp" = "/repo/webapp"
  /\ os_path_join "/" "webapp" = "/webapp"
  /\ os_path_join "." "webapp" = "./webapp".
Proof. repeat split; reflexivity. Qed.

Example str_of_path_examples :
  str_of_path ["/"; "repo"; "proj"] = "/repo/proj"
  /\ str_of_path ["//"; "host"; "share"] = "//host/share"
  /\ str_of_path ["proj"; "app.py"] = "proj/app.py"
  /\ str_of_path [] = ".".
Proof. repeat split; reflexivity. Qed.

(** A run interrupted during the first call ends there. *)
Example run_interrupted :
  main interrupted_env two_projects_fs
  = [ Print "Processing folder: /repo/good_project";
      GenerateContent
        (base_prompt +:+ file_block "/repo/good_project/app.py" "print(1)") ].
Proof. vm_compute. reflexivity. Qed.

Example suffix_examples :
  suffix ["proj"; "Main.PY"] = ".PY" /\ suffix ["proj"; ".env"] = ""
  /\ suffix ["proj"; "a.tar.gz"] = ".gz" /\ suffix ["proj"; "Makefile"] = ""
  /\ suffix ["proj"; "trailing."] = "".
Proof. repeat split; reflexivity. Qed.

(** * Strings and loops *)

Lemma gtb_true (a b : Z) : a > b -> (a >? b) = true.
Proof. intros H. rewrite Z.gtb_ltb. apply Z.ltb_lt. lia. Qed.

Lemma gtb_false (a b : Z) : a <= b -> (a >? b) = false.
Proof. intros H. rewrite Z.gtb_ltb. apply Z.ltb_ge. lia. Qed.

Lemma length_append (a b : string) :
  String.length (a +:+ b) = (String.length a + String.length b)%nat.
Proof.
  induction a as [|x a IH]; cbn; [reflexivity | now rewrite IH].
Qed.

Lemma len_append (a b : string) : len (a +:+ b) = len a + len b.
Proof.
  unfold len. rewrite length_append. lia.
Qed.

Lemma len_nonneg (s : string) : 0 <= len s.
Proof. unfold len. lia. Qed.

Lemma append_assoc (a b c : string) : (a +:+ b) +:+ c = a +:+ (b +:+ c).
Proof.
  induction a as [|x a IH]; cbn; [reflexivity | now rewrite IH].
Qed.

Lemma append_empty_r (a : string) : a +:+ EmptyString = a.
Proof.
  induction a as [|x a IH]; cbn; [reflexivity | now rewrite IH].
Qed.

Lemma slice_to_length (n : nat) (s : string) :
  (n <= String.length s)%nat -> String.length (slice_to n s) = n.
Proof.
  revert s. induction n as [|n IH]; intros s Hn.
  - now destruct s.
  - destruct s as [|c s]; cbn in *; [lia|]. rewrite IH; lia.
Qed.

Lemma slice_to_from (n : nat) (s : string) : slice_to n s +:+ slice_from n s = s.
Proof.
  revert s. induction n as [|n IH]; intros s.
  - now destruct s.
  - destruct s as [|c s]; cbn; [reflexivity | now rewrite IH].
Qed.

Lemma len_slice_to (n : Z) (s : string) :
  0 <= n <= len s -> len (slice_to (Z.to_nat n) s) = n.
Proof.
  unfold len. intros Hn. rewrite slice_to_length; lia.
Qed.

Lemma str_in_In (x : string) (l : list string) : str_in x l = true <-> In x l.
Proof.
  unfold str_in. rewrite existsb_exists. split.
  - intros [y [Hy Heq]]. apply String.eqb_eq in Heq. now subst.
  - intros Hx. exists x. split; [assumption | apply String.eqb_refl].
Qed.

Lemma dict_get_set (k v : string) (d : dict) : dict_get (dict_set k v d) k = Some v.
Proof.
  induction d as [|[k' v'] d IH]; cbn.
  - now rewrite String.eqb_refl.
  - destruct (String.eqb k' k) eqn:E; cbn.
    + now rewrite String.eqb_refl.
    + now rewrite E.
Qed.

Lemma dict_get_set_other (k k' v : string) (d : dict) :
  k' <> k -> dict_get (dict_set k v d) k' = dict_get d k'.
Proof.
  intros Hk. induction d as [|[k0 v0] d IH]; cbn.
  - destruct (String.eqb k k') eqn:E; [|reflexivity].
    apply String.eqb_eq in E. congruence.
  - destruct (String.eqb k0 k) eqn:E; cbn.
    + apply String.eqb_eq in E. subst k0.
      destruct (String.eqb k k') eqn:E'; [|reflexivity].
      apply String.eqb_eq in E'. congruence.
    + now rewrite IH.
Qed.

Lemma dict_eqb_eq (a b : dict) : dict_eqb a b = true -> a = b.
Proof.
  revert b. induction a as [|[k v] a IH]; intros [|[k' v'] b] H; cbn in H;
    try discriminate; [reflexivity|].
  apply andb_prop in H. destruct H as [H Hrest].
  apply andb_prop in H. destruct H as [Hk Hv].
  apply String.eqb_eq in Hk, Hv. subst. f_equal. now apply IH.
Qed.

(** * The text classifier *)

Lemma text_extensions_lower (x : string) :
  In x text_extensions -> lower x = x.
Proof.
  unfold text_extensions. cbn [In].
  intros H; repeat (destruct H as [<- | H]; [reflexivity|]); contradiction.
Qed.

(** C7. A file whose extension (compared in lower case) is in the allow-list
    is classified as text whatever media type is guessed for it, an extension
    spelled as in the list included; a file with no guessed media type
    starting with "text/" and no allow-listed extension is not. *)
Theorem is_text_file_classification (guess_type : string -> option string)
    (file_path : Path) :
  (str_in (lower (suffix file_path)) text_extensions = true ->
   is_text_file guess_type file_path = true)
  /\ (str_in (suffix file_path) text_extensions = true ->
      is_text_file guess_type file_path = true)
  /\ ((forall m, guess_type (str_of_path file_path) = Some m ->
                 startswith m "text/" = false) ->
      str_in (lower (suffix file_path)) text_extensions = false ->
      is_text_file guess_type file_path = false).
Proof.
  assert (Hlow : str_in (lower (suffix file_path)) text_extensions = true ->
                 is_text_file guess_type file_path = true).
  { intros Hext. unfold is_text_file.
    destruct (guess_type (str_of_path file_path)) as [m|]; [|exact Hext].
    destruct (negb (String.eqb m EmptyString) && startswith m "text/");
      [reflexivity | exact Hext]. }
  split; [exact Hlow | split].
  - intros Hext. apply Hlow.
    apply str_in_In in Hext. rewrite (text_extensions_lower _ Hext).
    now apply str_in_In.
  - intros Hmime Hext. unfold is_text_file.
    destruct (guess_type (str_of_path file_path)) as [m|] eqn:Hg; [|exact Hext].
    rewrite (Hmime m eq_refl), andb_false_r. exact Hext.
Qed.

Lemma is_text_file_classification_witness :
  is_text_file (fun _ => Some "application/octet-stream") ["proj"; "Main.PY"] = true
  /\ is_text_file (fun _ => Some "application/octet-stream") ["proj"; "main.py"] = true
  /\ is_text_file (fun _ => Some "image/png") ["proj"; "logo.png"] = false.
Proof.
  split; [|split].
  - apply (proj1 (is_text_file_classification _ _)). reflexivity.
  - apply (proj1 (proj2 (is_text_file_classification _ _))). reflexivity.
  - apply (proj2 (proj2 (is_text_file_classification _ _))).
    + intros m Hm. injection Hm as <-. reflexivity.
    + reflexivity.
Defined.

(** * The file collector *)

Lemma read_file_body_store (guess_type : string -> option string)
    (current_dir : Path) (file : string * (Z * result string))
    (file_contents : dict) (out : Log) :
  exists out',
    read_file_body guess_type current_dir file (file_contents, out)
    = Next (if considered guess_type current_dir file
            then store file_contents (current_dir // fst file, snd file)
            else file_contents,
            out').
Proof.
  destruct file as [file_name [st_size read]].
  unfold read_file_body, considered, store, stored. cbn [fst snd].
  destruct (negb (should_ignore (current_dir // file_name) false)
            && is_text_file guess_type (current_dir // file_name));
    [|eexists; reflexivity].
  destruct (st_size >? MAX_FILE_SIZE); [eexists; reflexivity|].
  destruct read; eexists; reflexivity.
Qed.

Lemma read_files_loop (guess_type : string -> option string) (current_dir : Path)
    (files : list (string * (Z * result string))) (file_contents : dict)
    (out : Log) :
  fst (for_in files (read_file_body guess_type current_dir) (file_contents, out))
  = fold_left store
      (map (fun file => (current_dir // fst file, snd file))
           (filter (considered guess_type current_dir) files))
      file_contents.
Proof.
  revert file_contents out.
  induction files as [|file files IH]; intros file_contents out; [reflexivity|].
  cbn [for_in filter].
  destruct (read_file_body_store guess_type current_dir file file_contents out)
    as [out' ->].
  rewrite IH. destruct (considered guess_type current_dir file); reflexivity.
Qed.

Lemma read_dirs_loop (guess_type : string -> option string)
    (dirs : list (Path * list (string * node))) (file_contents : dict) (out : Log) :
  fst (for_in dirs (read_dir_body guess_type) (file_contents, out))
  = fold_left store (flat_map (considered_in guess_type) dirs) file_contents.
Proof.
  revert file_contents out.
  induction dirs as [|[root entries] dirs IH]; intros file_contents out;
    [reflexivity|].
  cbn [for_in flat_map]. rewrite fold_left_app.
  change (read_dir_body guess_type (root, entries) (file_contents, out))
    with (if should_ignore root true then Next (file_contents, out)
          else Next (for_in (regular_files entries)
                       (read_file_body guess_type root) (file_contents, out))).
  unfold considered_in. cbn [fst snd].
  destruct (should_ignore root true); [apply IH|].
  rewrite <- (read_files_loop guess_type root (regular_files entries)
                file_contents out).
  destruct (for_in (regular_files entries) (read_file_body guess_type root)
              (file_contents, out)) as [file_contents' out'].
  apply IH.
Qed.

(** The map the collector returns is the considered files stored in turn. *)
Lemma read_project_files_fold (guess_type : string -> option string) (fs : FS)
    (project_folder : Path) (out : Log) :
  fst (read_project_files guess_type fs project_folder out)
  = fold_left store (considered_files guess_type fs project_folder) [].
Proof.
  unfold read_project_files, considered_files. apply read_dirs_loop.
Qed.

Lemma fold_store_other (files : list (Path * (Z * result string))) (d : dict)
    (k : string) :
  ~ In k (map (fun file => str_of_path (fst file)) files) ->
  dict_get (fold_left store files d) k = dict_get d k.
Proof.
  revert d. induction files as [|file files IH]; intros d Hk; [reflexivity|].
  cbn [fold_left]. cbn [map In] in Hk. rewrite IH by tauto.
  unfold store. destruct (stored file); [|reflexivity].
  apply dict_get_set_other. intros ->. tauto.
Qed.

Lemma fold_store_get (files : list (Path * (Z * result string))) (d : dict)
    (file : Path * (Z * result string)) :
  unique_paths files -> In file files ->
  dict_get (fold_left store files d) (str_of_path (fst file))
  = match stored file with
    | Some content => Some content
    | None => dict_get d (str_of_path (fst file))
    end.
Proof.
  unfold unique_paths. revert d.
  induction files as [|file0 files IH]; intros d Huniq Hin; [contradiction|].
  cbn [map] in Huniq. inversion Huniq as [|? ? Hfresh Huniq']; subst.
  cbn [fold_left]. destruct Hin as [-> | Hin].
  - rewrite (fold_store_other _ _ _ Hfresh). unfold store.
    destruct (stored file); [apply dict_get_set | reflexivity].
  - rewrite (IH _ Huniq' Hin). destruct (stored file); [reflexivity|].
    unfold store. destruct (stored file0); [|reflexivity].
    apply dict_get_set_other. intros Heq. apply Hfresh. rewrite <- Heq.
    apply (in_map (fun f => str_of_path (fst f))). exact Hin.
Qed.

(** The entry of a considered file in the map the collector returns. *)
Lemma collected_entry (guess_type : string -> option string) (fs : FS)
    (project_folder : Path) (out : Log) (file_path : Path) (st_size : Z)
    (read : result string) :
  unique_paths (considered_files guess_type fs project_folder) ->
  In (file_path, (st_size, read)) (considered_files guess_type fs project_folder) ->
  dict_get (fst (read_project_files guess_type fs project_folder out))
           (str_of_path file_path)
  = stored (file_path, (st_size, read)).
Proof.
  intros Huniq Hin. rewrite read_project_files_fold.
  pose proof (fold_store_get _ [] _ Huniq Hin) as Hget. cbn [fst] in Hget.
  rewrite Hget. now destruct (stored (file_path, (st_size, read))).
Qed.

(** C2, as the collector implements it.  For a file the collector considers,
    at path [file_path]: above [MAX_FILE_SIZE] bytes it has no entry in the
    returned map; otherwise a text of at most [MAX_CONTENT_LENGTH] characters
    is stored unmodified, and a longer text is stored as its first
    [MAX_CONTENT_LENGTH] characters followed by the truncation marker, of
    length cap plus marker length. *)
Theorem size_cap_and_content_cap (guess_type : string -> option string) (fs : FS)
    (project_folder : Path) (out : Log) (file_path : Path) (st_size : Z)
    (read : result string) :
  unique_paths (considered_files guess_type fs project_folder) ->
  In (file_path, (st_size, read)) (considered_files guess_type fs project_folder) ->
  let file_contents := fst (read_project_files guess_type fs project_folder out) in
  let key := str_of_path file_path in
  (st_size > MAX_FILE_SIZE -> dict_get file_contents key = None)
  /\ (forall text, st_size <= MAX_FILE_SIZE -> read = Ok text ->
                   len text <= MAX_CONTENT_LENGTH ->
                   dict_get file_contents key = Some text)
  /\ (forall text, st_size <= MAX_FILE_SIZE -> read = Ok text ->
                   len text > MAX_CONTENT_LENGTH ->
                   exists content,
                     dict_get file_contents key = Some content
                     /\ content = slice_to (Z.to_nat MAX_CONTENT_LENGTH) text
                                  +:+ truncation_marker
                     /\ len content = MAX_CONTENT_LENGTH + len truncation_marker).
Proof.
  intros Huniq Hin file_contents key. subst file_contents key.
  rewrite (collected_entry guess_type fs project_folder out _ _ _ Huniq Hin).
  unfold stored. split; [|split].
  - intros Hsize. now rewrite (gtb_true _ _ Hsize).
  - intros text Hsize -> Hlen.
    now rewrite (gtb_false _ _ Hsize), (gtb_false _ _ Hlen).
  - intros text Hsize -> Hlen.
    rewrite (gtb_false _ _ Hsize), (gtb_true _ _ Hlen).
    eexists. split; [reflexivity | split; [reflexivity|]].
    rewrite len_append, len_slice_to; [reflexivity|].
    unfold MAX_CONTENT_LENGTH in *. lia.
Qed.

Lemma cap_fs_unique_paths :
  unique_paths (considered_files no_guess cap_fs ["/"; "repo"; "proj"]).
Proof.
  unfold unique_paths.
  change (NoDup ["/repo/proj/at_cap.txt"; "/repo/proj/over_cap.txt";
                 "/repo/proj/app.py"]).
  repeat constructor; cbn; intuition discriminate.
Qed.

Lemma size_cap_and_content_cap_witness :
  dict_get (fst (read_project_files no_guess cap_fs ["/"; "repo"; "proj"] []))
           "/repo/proj/over_cap.txt" = None
  /\ dict_get (fst (read_project_files no_guess cap_fs ["/"; "repo"; "proj"] []))
              "/repo/proj/app.py" = Some "print(1)".
Proof.
  split.
  - apply (proj1 (size_cap_and_content_cap no_guess cap_fs ["/"; "repo"; "proj"] []
                    ["/"; "repo"; "proj"; "over_cap.txt"] 100001
                    (Ok (str_mul ascii_a 100001)) cap_fs_unique_paths
                    (or_intror (or_introl eq_refl)))).
    reflexivity.
  - apply (proj1 (proj2 (size_cap_and_content_cap no_guess cap_fs
                           ["/"; "repo"; "proj"] []
                           ["/"; "repo"; "proj"; "app.py"] 8 (Ok "print(1)")
                           cap_fs_unique_paths
                           (or_intror (or_intror (or_introl eq_refl)))))
             "print(1)").
    + discriminate.
    + reflexivity.
    + discriminate.
Defined.

(** C2, as stated, fails on the code: a plain-text file of exactly
    [MAX_FILE_SIZE] bytes is stored truncated, not unmodified, and a file one
    byte above the cap is not stored at all. *)
Lemma size_cap_counterexample :
  let text := str_mul ascii_a 100000 in
  let file_contents :=
    fst (read_project_files no_guess cap_fs ["/"; "repo"; "proj"] []) in
  dict_get file_contents "/repo/proj/at_cap.txt"
  = Some (slice_to (Z.to_nat MAX_CONTENT_LENGTH) text +:+ truncation_marker)
  /\ slice_to (Z.to_nat MAX_CONTENT_LENGTH) text +:+ truncation_marker <> text
  /\ dict_get file_contents "/repo/proj/over_cap.txt" = None.
Proof.
  intros text file_contents.
  assert (Hlen : len text > MAX_CONTENT_LENGTH) by (vm_compute; reflexivity).
  split; [|split].
  - subst file_contents.
    pose proof (collected_entry no_guess cap_fs ["/"; "repo"; "proj"] []
                  ["/"; "repo"; "proj"; "at_cap.txt"] 100000 (Ok text)
                  cap_fs_unique_paths (or_introl eq_refl)) as Hentry.
    change (str_of_path ["/"; "repo"; "proj"; "at_cap.txt"])
      with "/repo/proj/at_cap.txt" in Hentry.
    rewrite Hentry. unfold stored. rewrite (gtb_true _ _ Hlen). reflexivity.
  - intros Heq. apply (f_equal len) in Heq. vm_compute in Heq. discriminate.
  - subst file_contents.
    apply (collected_entry no_guess cap_fs ["/"; "repo"; "proj"] []
             ["/"; "repo"; "proj"; "over_cap.txt"] 100001
             (Ok (str_mul ascii_a 100001))
             cap_fs_unique_paths (or_intror (or_introl eq_refl))).
Qed.

(** C6. A collected file whose text is longer than [MAX_CONTENT_LENGTH] has
    for entry in the returned map the first [MAX_CONTENT_LENGTH] characters
    of the text followed by the truncation marker. *)
Theorem long_text_is_truncated (guess_type : string -> option string) (fs : FS)
    (project_folder : Path) (out : Log) (file_path : Path) (st_size : Z)
    (text : string) :
  unique_paths (considered_files guess_type fs project_folder) ->
  In (file_path, (st_size, Ok text)) (considered_files guess_type fs project_folder) ->
  st_size <= MAX_FILE_SIZE ->
  len text > MAX_CONTENT_LENGTH ->
  let head := slice_to (Z.to_nat MAX_CONTENT_LENGTH) text in
  dict_get (fst (read_project_files guess_type fs project_folder out))
           (str_of_path file_path)
  = Some (head +:+ truncation_marker)
  /\ len head = 30000
  /\ text = head +:+ slice_from (Z.to_nat MAX_CONTENT_LENGTH) text.
Proof.
  intros Huniq Hin Hsize Hlen head. subst head.
  rewrite (collected_entry guess_type fs project_folder out _ _ _ Huniq Hin).
  unfold stored. rewrite (gtb_false _ _ Hsize), (gtb_true _ _ Hlen).
  split; [reflexivity | split].
  - rewrite len_slice_to; [reflexivity|]. unfold MAX_CONTENT_LENGTH in *. lia.
  - symmetry. apply slice_to_from.
Qed.

(** A text of 40,000 characters is stored as its first 30,000 characters and
    the marker. *)
Lemma long_text_is_truncated_witness :
  dict_get (fst (read_project_files no_guess long_text_fs ["/"; "repo"; "proj"] []))
           "/repo/proj/data.txt"
  = Some (slice_to (Z.to_nat 30000) (str_mul ascii_a 40000) +:+ truncation_marker).
Proof.
  apply (long_text_is_truncated no_guess long_text_fs ["/"; "repo"; "proj"] []
           ["/"; "repo"; "proj"; "data.txt"] 40000 (str_mul ascii_a 40000)).
  - unfold unique_paths. change (NoDup ["/repo/proj/data.txt"]).
    repeat constructor. intros [].
  - left. reflexivity.
  - discriminate.
  - vm_compute. reflexivity.
Defined.

(** * The folder discoverer *)

Lemma name_joinpath (p : Path) (child : string) : name (p // child) = child.
Proof. unfold name, joinpath. apply last_last. Qed.

Lemma joinpath_inj (p : Path) (a b : string) : p // a = p // b -> a = b.
Proof. unfold joinpath. intros H. now apply app_inj_tail in H. Qed.

Lemma find_project_folders_loop (root_dir : Path) (listing : list (string * node))
    (project_folders : list Path) (out : Log) :
  fst (for_in listing (find_project_folders_body root_dir) (project_folders, out))
  = project_folders
      ++ map (fun item => root_dir // fst item) (filter (kept root_dir) listing).
Proof.
  revert project_folders out.
  induction listing as [|item listing IH]; intros project_folders out.
  - cbn. now rewrite app_nil_r.
  - cbn [for_in filter]. unfold find_project_folders_body at 1. unfold kept at 1.
    destruct (is_dir (snd item)
              && negb (should_ignore (root_dir // fst item) (is_dir (snd item))));
      cbn [andb].
    + destruct (has_entry (snd item) STOP_AUTOMATION_FOLDER); cbn [negb].
      * apply IH.
      * rewrite IH. cbn [map]. now rewrite <- app_assoc.
    + apply IH.
Qed.

Lemma find_project_folders_filter (fs : FS) (root_dir : Path) (out : Log) :
  fst (find_project_folders fs root_dir out)
  = map (fun item => root_dir // fst item)
        (filter (kept root_dir) (scandir fs root_dir)).
Proof.
  unfold find_project_folders. now rewrite find_project_folders_loop.
Qed.

Lemma should_ignore_named (p : Path) (path_is_dir : bool) :
  str_in (name p) IGNORE_FOLDERS = true -> should_ignore p path_is_dir = true.
Proof.
  intros H. unfold should_ignore. now rewrite H.
Qed.

Lemma should_ignore_child (root_dir : Path) (child : string) :
  any (fun part => str_in part IGNORE_FOLDERS) (parts root_dir) = false ->
  should_ignore (root_dir // child) true
  = str_in child IGNORE_FOLDERS || str_in child IGNORE_FILES.
Proof.
  intros Hroot. unfold should_ignore. rewrite name_joinpath.
  destruct (str_in child IGNORE_FOLDERS) eqn:Hf; [reflexivity|].
  destruct (str_in child IGNORE_FILES); [reflexivity|].
  cbn [orb andb]. unfold any, parts, joinpath in *.
  rewrite existsb_app, Hroot. cbn [existsb orb]. now rewrite Hf.
Qed.

Lemma kept_accepted (root_dir : Path) (item : string * node) :
  any (fun part => str_in part IGNORE_FOLDERS) (parts root_dir) = false ->
  kept root_dir item = accepted item.
Proof.
  intros Hroot. unfold kept, accepted.
  destruct (is_dir (snd item)); [|reflexivity]. cbn [andb].
  rewrite (should_ignore_child _ _ Hroot), negb_orb. reflexivity.
Qed.

Lemma unique_names_functional (entries : list (string * node)) (nm : string)
    (a b : node) :
  unique_names entries -> In (nm, a) entries -> In (nm, b) entries -> a = b.
Proof.
  unfold unique_names. induction entries as [|[k n] entries IH]; cbn.
  - contradiction.
  - intros Hnd Ha Hb. inversion Hnd as [|? ? Hnotin Hnd']; subst.
    destruct Ha as [Ha | Ha], Hb as [Hb | Hb].
    + congruence.
    + injection Ha as -> ->. exfalso. apply Hnotin.
      apply (in_map fst) in Hb. exact Hb.
    + injection Hb as -> ->. exfalso. apply Hnotin.
      apply (in_map fst) in Ha. exact Ha.
    + now apply IH.
Qed.

(** C5, as the discoverer implements it.  When no component of the root's
    own path is an ignored folder name, the result lists, in listing order,
    exactly the child directories named in neither ignore list that hold no
    entry called [.stopautomation]; and for every root, no path in the result
    is named in the ignored-folder list. *)
Theorem discovered_folders (fs : FS) (root_dir : Path) (out : Log) :
  (any (fun part => str_in part IGNORE_FOLDERS) (parts root_dir) = false ->
   fst (find_project_folders fs root_dir out)
   = map (fun item => root_dir // fst item)
         (filter accepted (scandir fs root_dir)))
  /\ (forall p, In p (fst (find_project_folders fs root_dir out)) ->
                str_in (name p) IGNORE_FOLDERS = false).
Proof.
  rewrite find_project_folders_filter. split.
  - intros Hroot. f_equal. apply filter_ext. intros item.
    now apply kept_accepted.
  - intros p Hp. apply in_map_iff in Hp. destruct Hp as [item [<- Hitem]].
    apply filter_In in Hitem. destruct Hitem as [_ Hkept].
    unfold kept in Hkept. apply andb_prop in Hkept. destruct Hkept as [Hkept _].
    apply andb_prop in Hkept. destruct Hkept as [_ Hign].
    destruct (str_in (name (root_dir // fst item)) IGNORE_FOLDERS) eqn:E;
      [|reflexivity].
    rewrite (should_ignore_named _ _ E) in Hign. discriminate.
Qed.

Lemma discovered_folders_witness :
  fst (find_project_folders two_projects_fs ["/"; "repo"] [])
  = [ ["/"; "repo"; "good_project"]; ["/"; "repo"; "docs"] ].
Proof.
  rewrite (proj1 (discovered_folders two_projects_fs ["/"; "repo"] [])).
  - reflexivity.
  - reflexivity.
Defined.

(** C5, as stated, fails on the code: a child directory holding a plain file
    named [.stopautomation], and a child directory named [.env], are both
    immediate child directories off the ignored-folder list and without a
    stop-marker subdirectory, yet neither is returned. *)
Lemma discovered_folders_counterexample :
  (discover_spec ["/"; "repo"] (scandir marker_file_fs ["/"; "repo"])
   = [ ["/"; "repo"; "webapp"] ]
   /\ fst (find_project_folders marker_file_fs ["/"; "repo"] []) = [])
  /\ (discover_spec ["/"; "repo"] (scandir env_dir_fs ["/"; "repo"])
      = [ ["/"; "repo"; ".env"] ]
      /\ fst (find_project_folders env_dir_fs ["/"; "repo"] []) = []).
Proof.
  repeat split; reflexivity.
Qed.

(** C9. A child directory that directly holds an entry named
    [.stopautomation], be it a plain file or a directory, is not among the
    discovered folders. *)
Theorem stop_marker_of_any_kind (fs : FS) (root_dir : Path) (out : Log)
    (child : string) (entries : list (string * node)) (marker : node) :
  unique_names (scandir fs root_dir) ->
  In (child, Dir entries) (scandir fs root_dir) ->
  In (STOP_AUTOMATION_FOLDER, marker) entries ->
  ~ In (root_dir // child) (fst (find_project_folders fs root_dir out)).
Proof.
  intros Huniq Hchild Hmarker Hin.
  rewrite find_project_folders_filter in Hin.
  apply in_map_iff in Hin. destruct Hin as [[nm n] [Hpath Hitem]].
  cbn [fst] in Hpath. apply joinpath_inj in Hpath. subst nm.
  apply filter_In in Hitem. destruct Hitem as [Hitem Hkept].
  rewrite (unique_names_functional _ _ _ _ Huniq Hitem Hchild) in Hkept.
  unfold kept in Hkept. apply andb_prop in Hkept. destruct Hkept as [_ Hstop].
  cbn [snd has_entry] in Hstop.
  assert (Hex : existsb (fun e : string * node =>
                           String.eqb (fst e) STOP_AUTOMATION_FOLDER) entries = true).
  { apply existsb_exists. exists (STOP_AUTOMATION_FOLDER, marker).
    split; [exact Hmarker | apply String.eqb_refl]. }
  rewrite Hex in Hstop. discriminate.
Qed.

Lemma stop_marker_of_any_kind_witness :
  ~ In ["/"; "repo"; "webapp"]
       (fst (find_project_folders marker_file_fs ["/"; "repo"] [])).
Proof.
  apply (stop_marker_of_any_kind marker_file_fs ["/"; "repo"] [] "webapp"
           [ (".stopautomation", File 0 (Ok "")); ("app.py", File 8 (Ok "print(1)")) ]
           (File 0 (Ok ""))).
  - unfold unique_names. cbn. constructor; [intros [] | constructor].
  - cbn. left. reflexivity.
  - cbn. left. reflexivity.
Defined.

(** * The prompt assembler *)

Lemma len_file_block (file_path content : string) :
  len (file_block file_path content) = 19 + len file_path + len content.
Proof.
  unfold file_block. rewrite !len_append. change (len LF) with 1.
  change (len "File: ") with 6. change (len "Content:") with 8. lia.
Qed.

Lemma formatted_size_cons (item : string * string) (l : dict) :
  formatted_size (item :: l)
  = len (file_block (fst item) (snd item)) + formatted_size l.
Proof. reflexivity. Qed.

Lemma formatted_size_nonneg (l : dict) : 0 <= formatted_size l.
Proof.
  induction l as [|item l IH]; [reflexivity|].
  rewrite formatted_size_cons, len_file_block.
  pose proof (len_nonneg (fst item)). pose proof (len_nonneg (snd item)). lia.
Qed.

Lemma len_blocks (l : dict) : len (blocks l) = formatted_size l.
Proof.
  induction l as [|[file_path content] l IH]; [reflexivity|].
  cbn [blocks]. rewrite len_append, IH. reflexivity.
Qed.

Lemma formatted_size_split (l : dict) (k : nat) (item : string * string) :
  nth_error l k = Some item ->
  formatted_size (firstn k l) + len (file_block (fst item) (snd item))
  <= formatted_size l.
Proof.
  revert k. induction l as [|x l IH]; intros k Hk.
  - destruct k; discriminate.
  - destruct k as [|k]; cbn [nth_error firstn] in *.
    + injection Hk as ->. rewrite formatted_size_cons.
      pose proof (formatted_size_nonneg l). change (formatted_size []) with 0. lia.
    + rewrite !formatted_size_cons. specialize (IH k Hk). lia.
Qed.

Lemma formatted_size_prefix_pos (l : dict) (k : nat) (item : string * string) :
  nth_error l (S k) = Some item -> 0 < formatted_size (firstn (S k) l).
Proof.
  destruct l as [|x l]; [discriminate|]. intros _.
  cbn [firstn]. rewrite formatted_size_cons, len_file_block.
  pose proof (formatted_size_nonneg (firstn k l)).
  pose proof (len_nonneg (fst x)). pose proof (len_nonneg (snd x)). lia.
Qed.

Lemma add_file_body_eq (file_path content prompt : string) (out : Log) :
  add_file_body (file_path, content) (prompt, out)
  = if len prompt + len (file_block file_path content) >? MAX_CONTENT_LENGTH
    then Break (prompt, print (skip_warning file_path) out)
    else Next (prompt +:+ file_block file_path content, out).
Proof. reflexivity. Qed.

(** The loop over the files: either every block fits, or it stops at the
    first block that does not. *)
Lemma add_files_loop (l : dict) (prompt : string) (out : Log) :
  len prompt <= MAX_CONTENT_LENGTH ->
  (len prompt + formatted_size l <= MAX_CONTENT_LENGTH
   /\ for_in l add_file_body (prompt, out) = (prompt +:+ blocks l, out))
  \/ (exists k item,
        nth_error l k = Some item
        /\ len prompt + formatted_size (firstn k l) <= MAX_CONTENT_LENGTH
        /\ len prompt + formatted_size (firstn k l)
             + len (file_block (fst item) (snd item)) > MAX_CONTENT_LENGTH
        /\ for_in l add_file_body (prompt, out)
           = (prompt +:+ blocks (firstn k l), print (skip_warning (fst item)) out)).
Proof.
  revert prompt. induction l as [|[file_path content] l IH]; intros prompt Hfit.
  - left. cbn. rewrite append_empty_r. split; [lia | reflexivity].
  - cbn [for_in]. rewrite add_file_body_eq.
    destruct (len prompt + len (file_block file_path content) >? MAX_CONTENT_LENGTH)
      eqn:Hcmp.
    + right. exists 0%nat, (file_path, content).
      rewrite Z.gtb_ltb in Hcmp. apply Z.ltb_lt in Hcmp.
      cbn [nth_error firstn blocks fst snd]. change (formatted_size []) with 0.
      rewrite append_empty_r.
      split; [reflexivity|]. split; [lia|]. split; [lia | reflexivity].
    + rewrite Z.gtb_ltb in Hcmp. apply Z.ltb_ge in Hcmp.
      assert (Hfit' : len (prompt +:+ file_block file_path content)
                      <= MAX_CONTENT_LENGTH) by (rewrite len_append; lia).
      destruct (IH _ Hfit') as [[Hall Heq] | [k [item [Hk [Hpre [Hover Heq]]]]]].
      * left. rewrite Heq, formatted_size_cons. cbn [fst snd blocks].
        rewrite len_append in Hall. rewrite append_assoc. split; [lia | reflexivity].
      * right. exists (S k), item. cbn [nth_error firstn blocks].
        rewrite Heq, formatted_size_cons. cbn [fst snd].
        rewrite len_append in Hpre, Hover. rewrite append_assoc.
        split; [assumption|]. split; [lia|]. split; [lia | reflexivity].
Qed.

Lemma base_prompt_fits : len base_prompt <= MAX_CONTENT_LENGTH.
Proof. discriminate. Qed.

(** The file blocks alone never carry the prompt over the cap. *)
Lemma add_files_within_cap (file_contents : dict) (out : Log) :
  len (fst (add_files file_contents out)) <= MAX_CONTENT_LENGTH.
Proof.
  unfold add_files.
  destruct (add_files_loop file_contents base_prompt out base_prompt_fits)
    as [[Hall ->] | [k [item [_ [Hpre [_ ->]]]]]]; cbn [fst];
    rewrite len_append, len_blocks; assumption.
Qed.

(** With a notice the prompt is at most one notice over the cap. *)
Lemma build_prompt_bound (file_contents : dict) (out : Log) :
  len (fst (build_prompt file_contents out))
  <= MAX_CONTENT_LENGTH + len no_content_notice.
Proof.
  unfold build_prompt. pose proof (add_files_within_cap file_contents out) as H.
  destruct (add_files file_contents out) as [prompt out']. cbn [fst] in *.
  unfold add_notice. fold (formatted_size file_contents).
  destruct (len prompt =? len base_prompt) eqn:E.
  - rewrite len_append. lia.
  - destruct (len prompt <? formatted_size file_contents + len base_prompt);
      [rewrite len_append; change (len skipped_notice) with 78|];
      change (len no_content_notice) with 104; lia.
Qed.

(** C4, as the assembler implements it.  When the cumulative formatted size
    exceeds the cap, the loop stops at the first entry whose block does not
    fit; the prompt is the preamble, the blocks of the entries before it, in
    order, and one notice: the notice that some files were skipped when at
    least one block was added, the notice that no content was included when
    none was.  The diagnostic names the rejected file. *)
Theorem prompt_is_fitting_prefix (file_contents : dict) (out : Log) :
  formatted_size file_contents > MAX_CONTENT_LENGTH ->
  exists k item,
    nth_error file_contents k = Some item
    /\ (k < List.length file_contents)%nat
    /\ len (base_prompt +:+ blocks (firstn k file_contents)) <= MAX_CONTENT_LENGTH
    /\ len (base_prompt +:+ blocks (firstn k file_contents))
         + len (file_block (fst item) (snd item)) > MAX_CONTENT_LENGTH
    /\ build_prompt file_contents out
       = ((base_prompt +:+ blocks (firstn k file_contents))
          +:+ (if (k =? 0)%nat then no_content_notice else skipped_notice),
          print (skip_warning (fst item)) out).
Proof.
  intros Hbig. unfold build_prompt, add_files.
  destruct (add_files_loop file_contents base_prompt out base_prompt_fits)
    as [[Hall _] | [k [item [Hk [Hpre [Hover ->]]]]]].
  - pose proof (len_nonneg base_prompt). lia.
  - exists k, item. rewrite len_append, len_blocks.
    repeat split; try assumption.
    + apply nth_error_Some. congruence.
    + f_equal. unfold add_notice. rewrite len_append, len_blocks.
      destruct k as [|k].
      * cbn [firstn]. change (formatted_size []) with 0.
        rewrite Z.add_0_r, Z.eqb_refl. reflexivity.
      * pose proof (formatted_size_prefix_pos _ _ _ Hk) as Hpos.
        pose proof (formatted_size_split _ _ _ Hk) as Hsplit.
        rewrite len_file_block in Hsplit.
        pose proof (len_nonneg (fst item)). pose proof (len_nonneg (snd item)).
        replace (len base_prompt + formatted_size (firstn (S k) file_contents)
                 =? len base_prompt) with false by (symmetry; apply Z.eqb_neq; lia).
        fold (formatted_size file_contents).
        replace (len base_prompt + formatted_size (firstn (S k) file_contents)
                 <? formatted_size file_contents + len base_prompt) with true
          by (symmetry; apply Z.ltb_lt; lia).
        reflexivity.
Qed.

Lemma prompt_is_fitting_prefix_witness :
  exists k item,
    nth_error mixed_files k = Some item
    /\ (k < List.length mixed_files)%nat
    /\ len (base_prompt +:+ blocks (firstn k mixed_files)) <= MAX_CONTENT_LENGTH
    /\ len (base_prompt +:+ blocks (firstn k mixed_files))
         + len (file_block (fst item) (snd item)) > MAX_CONTENT_LENGTH
    /\ build_prompt mixed_files []
       = ((base_prompt +:+ blocks (firstn k mixed_files))
          +:+ (if (k =? 0)%nat then no_content_notice else skipped_notice),
          print (skip_warning (fst item)) []).
Proof.
  apply (prompt_is_fitting_prefix mixed_files []).
  vm_compute. reflexivity.
Defined.

(** C4, as stated, fails on the code: when the very first block does not fit,
    the prompt is the preamble followed by the notice that no content was
    included, not by the notice that some files were skipped. *)
Lemma prompt_prefix_counterexample :
  formatted_size oversized_files > MAX_CONTENT_LENGTH
  /\ fst (build_prompt oversized_files []) = base_prompt +:+ no_content_notice
  /\ forall k,
      fst (build_prompt oversized_files [])
      <> (base_prompt +:+ blocks (firstn k oversized_files)) +:+ skipped_notice.
Proof.
  split; [vm_compute; reflexivity | split; [vm_compute; reflexivity|]].
  intros k Heq. apply (f_equal len) in Heq.
  destruct k as [|k]; [vm_compute in Heq; discriminate|].
  unfold oversized_files in Heq at 2. cbn [firstn] in Heq. rewrite firstn_nil in Heq.
  vm_compute in Heq. discriminate.
Qed.

(** C1 at a concrete project.  The collector returns two files; the block of
    the first brings the prompt to the cap exactly, the second is rejected,
    and the notice that some files were skipped is appended after the check:
    the prompt handed to the service is 30,078 characters long. *)
Theorem prompt_over_cap_after_notice :
  fst (read_project_files no_guess full_prompt_fs ["/"; "repo"; "proj"] [])
  = full_prompt_files
  /\ len (fst (add_files full_prompt_files [])) = MAX_CONTENT_LENGTH
  /\ len (fst (build_prompt full_prompt_files [])) = 30078
  /\ len (fst (build_prompt full_prompt_files [])) > MAX_CONTENT_LENGTH.
Proof.
  split; [apply dict_eqb_eq; vm_compute; reflexivity|].
  split; [vm_compute; reflexivity|].
  split; vm_compute; reflexivity.
Qed.

(** * Diagnostics of the collector *)

Lemma only_prints_refl (out : Log) : only_prints out out.
Proof. exists []. cbn. now rewrite app_nil_r. Qed.

Lemma only_prints_trans (a b c : Log) :
  only_prints a b -> only_prints b c -> only_prints a c.
Proof.
  intros [m1 ->] [m2 ->]. exists (m1 ++ m2). now rewrite map_app, app_assoc.
Qed.

Lemma only_prints_print (line : string) (out : Log) : only_prints out (print line out).
Proof. exists [line]. reflexivity. Qed.

Lemma for_in_only_prints {A D : Type} (body : A -> D * Log -> ctl (D * Log))
    (l : list A) :
  (forall x s, only_prints (snd s) (snd (ctl_state (body x s)))) ->
  forall s, only_prints (snd s) (snd (for_in l body s)).
Proof.
  intros Hbody. induction l as [|x l IH]; intros s; cbn [for_in].
  - apply only_prints_refl.
  - specialize (Hbody x s). destruct (body x s) as [s' | s']; cbn [ctl_state] in Hbody.
    + eapply only_prints_trans; [exact Hbody | apply IH].
    + exact Hbody.
Qed.

Lemma read_file_body_only_prints (guess_type : string -> option string)
    (current_dir : Path) (file : string * (Z * result string)) (s : dict * Log) :
  only_prints (snd s) (snd (ctl_state (read_file_body guess_type current_dir file s))).
Proof.
  destruct s as [file_contents out]. destruct file as [file_name [st_size read]].
  unfold read_file_body.
  destruct (negb (should_ignore (current_dir // file_name) false)
            && is_text_file guess_type (current_dir // file_name));
    [|apply only_prints_refl].
  destruct (st_size >? MAX_FILE_SIZE); [apply only_prints_print|].
  destruct read; [apply only_prints_refl | apply only_prints_print].
Qed.

Lemma read_dir_body_only_prints (guess_type : string -> option string)
    (item : Path * list (string * node)) (s : dict * Log) :
  only_prints (snd s) (snd (ctl_state (read_dir_body guess_type item s))).
Proof.
  destruct item as [root entries]. unfold read_dir_body.
  destruct (should_ignore root true); cbn [ctl_state]; [apply only_prints_refl|].
  apply for_in_only_prints. intros. apply read_file_body_only_prints.
Qed.

Lemma read_project_files_only_prints (guess_type : string -> option string)
    (fs : FS) (project_folder : Path) (out : Log) :
  only_prints out (snd (read_project_files guess_type fs project_folder out)).
Proof.
  unfold read_project_files.
  apply (for_in_only_prints (read_dir_body guess_type)
           (os_walk fs project_folder)
           (fun x s => read_dir_body_only_prints guess_type x s) ([], out)).
Qed.

(** * The generator client and the batch *)

Lemma main_body_next (env : Env) (fs : FS) (project_folder : Path)
    (rest : list Path) (out out' : Log) :
  main_body env fs project_folder out = Next out' ->
  for_in (project_folder :: rest) (main_body env fs) out
  = for_in rest (main_body env fs) out'.
Proof.
  intros Hbody. cbn [for_in]. now rewrite Hbody.
Qed.

Lemma error_document_first_line (description : string) :
  first_line (error_document description) = error_heading.
Proof. reflexivity. Qed.

Lemma error_document_heading (description : string) :
  startswith (error_document description) error_heading = true.
Proof. reflexivity. Qed.




Lemma generate_readme_try_service_raises (env : Env) (file_contents : dict)
    (out : Log) (b : BaseException) :
  env_model env out = None ->
  env_generate env
    (snd (build_prompt file_contents out)
       ++ [GenerateContent (fst (build_prompt file_contents out))])
    (fst (build_prompt file_contents out))
  = Raises b ->
  generate_readme_try env file_contents out
  = (Raises b,
     snd (build_prompt file_contents out)
       ++ [GenerateContent (fst (build_prompt file_contents out))]).
Proof.
  intros Hmodel Hraise. unfold generate_readme_try. rewrite Hmodel.
  destruct (build_prompt file_contents out) as [prompt out1]. cbn [fst snd] in *.
  now rewrite Hraise.
Qed.

Lemma generate_readme_on_raise (env : Env) (file_contents : dict)
    (out out1 : Log) (e : Exception) :
  generate_readme_try env file_contents out = (Raises (OfException e), out1) ->
  generate_readme_with_gemini env file_contents out
  = (Returns (error_document (str_of_exc e)),
     print ("Error generating README with Gemini: " +:+ str_of_exc e) out1).
Proof.
  intros Htry. unfold generate_readme_with_gemini. now rewrite Htry.
Qed.

Lemma generate_readme_on_interrupt (env : Env) (file_contents : dict)
    (out out1 : Log) (description : string) :
  generate_readme_try env file_contents out
  = (Raises (NotException description), out1) ->
  generate_readme_with_gemini env file_contents out
  = (Raises (NotException description), out1).
Proof.
  intros Htry. unfold generate_readme_with_gemini. now rewrite Htry.
Qed.



(** C3, as the client implements it.  When the call to the generation
    service raises [e], the README content of the project is the error
    document: its first line is the fixed heading "# Error Generating README",
    and [str(e)] follows after a blank line, at the end of the sentence
    "An error occurred while generating the README: "; the document is what
    the writer is given, and the loop goes on with the remaining projects. *)
Theorem service_failure_yields_error_document (env : Env) (fs : FS)
    (project_folder : Path) (rest : list Path) (out : Log) (e : Exception) :
  let collected :=
    read_project_files (env_guess_type env) fs project_folder
      (print ("Processing folder: " +:+ str_of_path project_folder) out) in
  let assembled := build_prompt (fst collected) (snd collected) in
  let asked := snd assembled ++ [GenerateContent (fst assembled)] in
  let readme := error_document (str_of_exc e) in
  let failed :=
    print ("Error generating README with Gemini: " +:+ str_of_exc e) asked in
  fst collected <> [] ->
  env_model env (snd collected) = None ->
  env_generate env asked (fst assembled) = Raises (OfException e) ->
  generate_readme_with_gemini env (fst collected) (snd collected)
  = (Returns readme, failed)
  /\ first_line readme = "# Error Generating README"
  /\ readme = "# Error Generating README" +:+ LF +:+ LF
              +:+ "An error occurred while generating the README: "
              +:+ str_of_exc e
  /\ for_in (project_folder :: rest) (main_body env fs) out
     = for_in rest (main_body env fs) (save_readme env project_folder readme failed)
  /\ (env_write env failed (project_folder // "README.md") readme = None ->
      In (WriteFile (project_folder // "README.md") readme)
         (save_readme env project_folder readme failed)).
Proof.
  intros collected assembled asked readme failed Hfiles Hmodel Hraise.
  assert (Hgen : generate_readme_with_gemini env (fst collected) (snd collected)
                 = (Returns readme, failed)).
  { apply generate_readme_on_raise.
    now apply generate_readme_try_service_raises. }
  split; [exact Hgen|].
  split; [reflexivity|]. split; [reflexivity|]. split.
  - apply main_body_next. unfold main_body.
    fold collected. destruct collected as [[|entry file_contents] out1] eqn:Hc.
    + now contradiction Hfiles.
    + cbn [fst snd] in Hgen. rewrite Hgen. reflexivity.
  - intros Hwrite. unfold save_readme. rewrite Hwrite. unfold print.
    apply in_or_app. left. apply in_or_app. right. left. reflexivity.
Qed.

Lemma service_failure_yields_error_document_witness :
  exists failed,
    generate_readme_with_gemini failing_env
      [("/repo/good_project/app.py", "print(1)")]
      [Print "Processing folder: /repo/good_project"]
    = (Returns (error_document "401 API key not valid"), failed).
Proof.
  eexists.
  apply (proj1 (service_failure_yields_error_document failing_env two_projects_fs
                  ["/"; "repo"; "good_project"] [["/"; "repo"; "docs"]] []
                  (Exc "401 API key not valid")
                  ltac:(discriminate) eq_refl eq_refl)).
Defined.

(** C3, as stated, fails on the code: when the service refuses the key, the
    README written for the project has the failure description in its body,
    but its first line, the heading, does not contain it. *)
Lemma error_heading_counterexample :
  let readme := error_document "401 API key not valid" in
  In (WriteFile ["/"; "repo"; "good_project"; "README.md"] readme)
     (main failing_env two_projects_fs)
  /\ first_line readme = "# Error Generating README"
  /\ contains (first_line readme) "401 API key not valid" = false
  /\ contains readme "401 API key not valid" = true.
Proof.
  split; [|split; [|split]]; [|reflexivity..].
  vm_compute. right. right. right. left. reflexivity.
Qed.




(** * Further properties of the collector *)

Lemma should_ignore_false (path : Path) (path_is_dir : bool) :
  should_ignore path path_is_dir = false ->
  str_in (name path) IGNORE_FOLDERS = false
  /\ str_in (name path) IGNORE_FILES = false
  /\ (path_is_dir = true ->
      any (fun part => str_in part IGNORE_FOLDERS) (parts path) = false).
Proof.
  unfold should_ignore. intros H.
  destruct (str_in (name path) IGNORE_FOLDERS); [discriminate|].
  destruct (str_in (name path) IGNORE_FILES); [discriminate|].
  cbn [orb] in H. repeat split. intros ->. cbn [andb] in H.
  now destruct (any _ _).
Qed.

Lemma considered_files_origin (guess_type : string -> option string) (fs : FS)
    (project_folder : Path) (file : Path * (Z * result string)) :
  In file (considered_files guess_type fs project_folder) ->
  exists current_dir entries file_name,
    In (current_dir, entries) (os_walk fs project_folder)
    /\ In (file_name, File (fst (snd file)) (snd (snd file))) entries
    /\ fst file = current_dir // file_name
    /\ should_ignore current_dir true = false
    /\ should_ignore (current_dir // file_name) false = false
    /\ is_text_file guess_type (current_dir // file_name) = true.
Proof.
  unfold considered_files. intros Hin. apply in_flat_map in Hin.
  destruct Hin as [[current_dir entries] [Hwalk Hin]].
  unfold considered_in in Hin. cbn [fst snd] in Hin.
  destruct (should_ignore current_dir true) eqn:Hdir; [contradiction|].
  apply in_map_iff in Hin. destruct Hin as [[file_name [st_size read]] [<- Hin]].
  apply filter_In in Hin. destruct Hin as [Hin Hcons].
  unfold considered in Hcons. cbn [fst] in Hcons.
  apply andb_prop in Hcons. destruct Hcons as [Hkept Htext].
  apply negb_true_iff in Hkept.
  unfold regular_files in Hin. apply in_flat_map in Hin.
  destruct Hin as [[nm n] [Hentry Hin]]. cbn [fst snd] in Hin.
  destruct n as [sz rd | sub]; [|contradiction].
  destruct Hin as [Heq | []]. injection Heq as -> -> ->.
  exists current_dir, entries, file_name. cbn [fst snd]. repeat split; assumption.
Qed.

Lemma fold_store_entry (files : list (Path * (Z * result string))) (d : dict)
    (k v : string) :
  dict_get (fold_left store files d) k = Some v ->
  dict_get d k = Some v
  \/ exists file, In file files /\ k = str_of_path (fst file) /\ stored file = Some v.
Proof.
  revert d. induction files as [|file files IH]; intros d Hget; [now left|].
  cbn [fold_left] in Hget. destruct (IH _ Hget) as [Hd | [file' [Hin [Hk Hv]]]].
  - unfold store in Hd. destruct (stored file) as [content|] eqn:Hst; [|now left].
    destruct (string_dec k (str_of_path (fst file))) as [-> | Hne].
    + rewrite dict_get_set in Hd. injection Hd as ->.
      right. exists file. repeat split; [now left | assumption].
    + rewrite (dict_get_set_other _ _ _ _ Hne) in Hd. now left.
  - right. exists file'. repeat split; [now right | assumption | assumption].
Qed.

Lemma stored_within_size_cap (file : Path * (Z * result string)) (v : string) :
  stored file = Some v ->
  fst (snd file) <= MAX_FILE_SIZE
  /\ len v <= MAX_CONTENT_LENGTH + len truncation_marker.
Proof.
  destruct file as [file_path [st_size read]]. unfold stored. cbn [fst snd].
  destruct (st_size >? MAX_FILE_SIZE) eqn:Hsize; [discriminate|].
  rewrite Z.gtb_ltb in Hsize. apply Z.ltb_ge in Hsize.
  destruct read as [content | e]; [|discriminate].
  intros Hv.
  apply (f_equal (fun o => match o with Some x => x | None => v end)) in Hv.
  cbv beta iota in Hv. subst v. split; [assumption|].
  change (len truncation_marker) with 38.
  destruct (len content >? MAX_CONTENT_LENGTH) eqn:Hlen.
  - rewrite Z.gtb_ltb in Hlen. apply Z.ltb_lt in Hlen.
    rewrite len_append, len_slice_to; [change (len truncation_marker) with 38; lia|].
    unfold MAX_CONTENT_LENGTH in *. lia.
  - rewrite Z.gtb_ltb in Hlen. apply Z.ltb_ge in Hlen. lia.
Qed.

(** X1. Every entry of the map the collector returns is keyed by the path of
    a regular file it considered: no component of that path is an ignored
    folder name, its name is not an ignored file name, it is classified as
    text, and it is not above the size cap. *)
Theorem collected_keys_avoid_ignored (guess_type : string -> option string) (fs : FS)
    (project_folder : Path) (out : Log) (k v : string) :
  dict_get (fst (read_project_files guess_type fs project_folder out)) k = Some v ->
  exists file_path st_size read,
    In (file_path, (st_size, read)) (considered_files guess_type fs project_folder)
    /\ k = str_of_path file_path
    /\ (forall part, In part (parts file_path) -> ~ In part IGNORE_FOLDERS)
    /\ ~ In (name file_path) IGNORE_FILES
    /\ is_text_file guess_type file_path = true
    /\ st_size <= MAX_FILE_SIZE.
Proof.
  intros Hget. rewrite read_project_files_fold in Hget.
  apply fold_store_entry in Hget.
  destruct Hget as [Hnil | [[file_path [st_size read]] [Hin [Hk Hv]]]];
    [discriminate|].
  exists file_path, st_size, read. cbn [fst] in Hk.
  split; [assumption | split; [assumption|]].
  destruct (considered_files_origin _ _ _ _ Hin)
    as [current_dir [entries [file_name [_ [_ [Hpath [Hdir [Hfile Htext]]]]]]]].
  cbn [fst] in Hpath. subst file_path.
  apply should_ignore_false in Hdir. destruct Hdir as [_ [_ Hparts]].
  specialize (Hparts eq_refl).
  apply should_ignore_false in Hfile. destruct Hfile as [Hfolder [Hfiles _]].
  rewrite name_joinpath in Hfolder, Hfiles.
  split; [|split; [|split]].
  - intros part Hpart Hbad. unfold parts, joinpath in Hpart.
    apply in_app_or in Hpart. destruct Hpart as [Hpart | [<- | []]].
    + unfold any, parts in Hparts.
      assert (Hex : existsb (fun part => str_in part IGNORE_FOLDERS) current_dir = true).
      { apply existsb_exists. exists part. split; [assumption | now apply str_in_In]. }
      congruence.
    + apply str_in_In in Hbad. congruence.
  - rewrite name_joinpath. intros Hbad. apply str_in_In in Hbad. congruence.
  - assumption.
  - apply (stored_within_size_cap _ _ Hv).
Qed.

Lemma collected_keys_avoid_ignored_witness :
  exists file_path st_size read,
    In (file_path, (st_size, read))
       (considered_files no_guess two_projects_fs ["/"; "repo"; "good_project"])
    /\ "/repo/good_project/app.py" = str_of_path file_path
    /\ (forall part, In part (parts file_path) -> ~ In part IGNORE_FOLDERS)
    /\ ~ In (name file_path) IGNORE_FILES
    /\ is_text_file no_guess file_path = true
    /\ st_size <= MAX_FILE_SIZE.
Proof.
  apply (collected_keys_avoid_ignored no_guess two_projects_fs
           ["/"; "repo"; "good_project"] [] "/repo/good_project/app.py" "print(1)").
  reflexivity.
Defined.

(** X2. No content in the map the collector returns is longer than
    [MAX_CONTENT_LENGTH] plus the length of the truncation marker. *)
Theorem collected_content_is_bounded (guess_type : string -> option string)
    (fs : FS) (project_folder : Path) (out : Log) (k v : string) :
  dict_get (fst (read_project_files guess_type fs project_folder out)) k = Some v ->
  len v <= MAX_CONTENT_LENGTH + len truncation_marker.
Proof.
  intros Hget. rewrite read_project_files_fold in Hget.
  apply fold_store_entry in Hget.
  destruct Hget as [Hnil | [file [_ [_ Hv]]]]; [discriminate|].
  apply (stored_within_size_cap _ _ Hv).
Qed.

Lemma collected_content_is_bounded_witness :
  len (slice_to (Z.to_nat 30000) (str_mul ascii_a 40000) +:+ truncation_marker)
  <= MAX_CONTENT_LENGTH + len truncation_marker.
Proof.
  apply (collected_content_is_bounded no_guess long_text_fs ["/"; "repo"; "proj"] []
           "/repo/proj/data.txt").
  pose proof (collected_entry no_guess long_text_fs ["/"; "repo"; "proj"] []
                ["/"; "repo"; "proj"; "data.txt"] 40000
                (Ok (str_mul ascii_a 40000))) as Hentry.
  change (str_of_path ["/"; "repo"; "proj"; "data.txt"])
    with "/repo/proj/data.txt" in Hentry.
  rewrite Hentry.
  - unfold stored.
    replace (len (str_mul ascii_a 40000) >? MAX_CONTENT_LENGTH) with true
      by (vm_compute; reflexivity).
    reflexivity.
  - unfold unique_paths. change (NoDup ["/repo/proj/data.txt"]).
    repeat constructor. intros [].
  - left. reflexivity.
Defined.

Lemma read_file_body_log (guess_type : string -> option string)
    (current_dir : Path) (file : string * (Z * result string))
    (file_contents : dict) (out : Log) :
  snd (ctl_state (read_file_body guess_type current_dir file (file_contents, out)))
  = out ++ map Print
             (if considered guess_type current_dir file
              then diagnostic (current_dir // fst file, snd file)
              else []).
Proof.
  destruct file as [file_name [st_size read]].
  unfold read_file_body, considered, diagnostic. cbn [fst snd].
  destruct (negb (should_ignore (current_dir // file_name) false)
            && is_text_file guess_type (current_dir // file_name));
    [|cbn; now rewrite app_nil_r].
  destruct (st_size >? MAX_FILE_SIZE); [reflexivity|].
  destruct read; [cbn; now rewrite app_nil_r | reflexivity].
Qed.

Lemma read_files_log (guess_type : string -> option string) (current_dir : Path)
    (files : list (string * (Z * result string))) (file_contents : dict)
    (out : Log) :
  snd (for_in files (read_file_body guess_type current_dir) (file_contents, out))
  = out ++ map Print
             (flat_map diagnostic
                (map (fun file => (current_dir // fst file, snd file))
                     (filter (considered guess_type current_dir) files))).
Proof.
  revert file_contents out.
  induction files as [|file files IH]; intros file_contents out.
  - cbn. now rewrite app_nil_r.
  - cbn [for_in filter].
    pose proof (read_file_body_log guess_type current_dir file file_contents out)
      as Hlog.
    destruct (read_file_body_store guess_type current_dir file file_contents out)
      as [out' Hbody].
    rewrite Hbody in Hlog |- *. cbn [ctl_state snd] in Hlog. subst out'.
    rewrite IH. destruct (considered guess_type current_dir file).
    + cbn [map flat_map]. now rewrite map_app, app_assoc.
    + cbn [map]. now rewrite app_nil_r.
Qed.

Lemma read_dirs_log (guess_type : string -> option string)
    (dirs : list (Path * list (string * node))) (file_contents : dict) (out : Log) :
  snd (for_in dirs (read_dir_body guess_type) (file_contents, out))
  = out ++ map Print (flat_map diagnostic (flat_map (considered_in guess_type) dirs)).
Proof.
  revert file_contents out.
  induction dirs as [|[root entries] dirs IH]; intros file_contents out.
  - cbn. now rewrite app_nil_r.
  - cbn [for_in flat_map]. rewrite flat_map_app, map_app, app_assoc.
    change (read_dir_body guess_type (root, entries) (file_contents, out))
      with (if should_ignore root true then Next (file_contents, out)
            else Next (for_in (regular_files entries)
                         (read_file_body guess_type root) (file_contents, out))).
    unfold considered_in. cbn [fst snd].
    destruct (should_ignore root true).
    + rewrite IH. cbn [flat_map map]. now rewrite app_nil_r.
    + rewrite <- (read_files_log guess_type root (regular_files entries)
                    file_contents out).
      destruct (for_in (regular_files entries) (read_file_body guess_type root)
                  (file_contents, out)) as [file_contents' out'].
      apply IH.
Qed.

(** X3. The collector prints one line for each considered file that is above
    the size cap or cannot be read, in the order it meets them, and nothing
    else: stored files, ignored paths and files not classified as text leave
    no trace in the log. *)
Theorem collector_diagnostics (guess_type : string -> option string) (fs : FS)
    (project_folder : Path) (out : Log) :
  snd (read_project_files guess_type fs project_folder out)
  = out ++ map Print
             (flat_map diagnostic (considered_files guess_type fs project_folder)).
Proof.
  unfold read_project_files, considered_files. apply read_dirs_log.
Qed.

(** X4. A considered file that cannot be read or decoded has no entry in the
    returned map, whatever its size, and when it is within the size cap the
    log holds the line that reports the failure with [str(e)]. *)
Theorem unreadable_file_is_skipped (guess_type : string -> option string)
    (fs : FS) (project_folder : Path) (out : Log) (file_path : Path)
    (st_size : Z) (e : Exception) :
  unique_paths (considered_files guess_type fs project_folder) ->
  In (file_path, (st_size, Raise e)) (considered_files guess_type fs project_folder) ->
  dict_get (fst (read_project_files guess_type fs project_folder out))
           (str_of_path file_path) = None
  /\ (st_size <= MAX_FILE_SIZE ->
      In (Print ("Error reading file " +:+ str_of_path file_path +:+ ": "
                 +:+ str_of_exc e))
         (snd (read_project_files guess_type fs project_folder out))).
Proof.
  intros Huniq Hin. split.
  - rewrite (collected_entry guess_type fs project_folder out _ _ _ Huniq Hin).
    unfold stored. now destruct (st_size >? MAX_FILE_SIZE).
  - intros Hsize. unfold read_project_files. rewrite read_dirs_log.
    fold (considered_files guess_type fs project_folder).
    apply in_or_app. right. apply in_map. apply in_flat_map.
    exists (file_path, (st_size, Raise e)). split; [assumption|].
    unfold diagnostic. rewrite (gtb_false _ _ Hsize). now left.
Qed.

Lemma unreadable_file_is_skipped_witness :
  dict_get (fst (read_project_files no_guess unreadable_fs ["/"; "repo"; "proj"] []))
           "/repo/proj/notes.txt" = None
  /\ In (Print "Error reading file /repo/proj/notes.txt: invalid start byte")
        (snd (read_project_files no_guess unreadable_fs ["/"; "repo"; "proj"] [])).
Proof.
  assert (Huniq : unique_paths
                    (considered_files no_guess unreadable_fs ["/"; "repo"; "proj"])).
  { unfold unique_paths.
    change (NoDup ["/repo/proj/notes.txt"; "/repo/proj/app.py"]).
    repeat constructor; cbn; intuition discriminate. }
  destruct (unreadable_file_is_skipped no_guess unreadable_fs ["/"; "repo"; "proj"] []
              ["/"; "repo"; "proj"; "notes.txt"] 4 (Exc "invalid start byte")
              Huniq (or_introl eq_refl)) as [Hnone Hlog].
  split; [exact Hnone | apply Hlog; discriminate].
Defined.

(** * Further properties of the discoverer *)

Lemma find_project_folders_log_loop (root_dir : Path)
    (listing : list (string * node)) (project_folders : list Path) (out : Log) :
  snd (for_in listing (find_project_folders_body root_dir) (project_folders, out))
  = out ++ map Print (map (skip_message root_dir) (filter (stopped root_dir) listing)).
Proof.
  revert project_folders out.
  induction listing as [|item listing IH]; intros project_folders out.
  - cbn. now rewrite app_nil_r.
  - cbn [for_in filter]. unfold find_project_folders_body at 1. unfold stopped at 1.
    destruct (is_dir (snd item)
              && negb (should_ignore (root_dir // fst item) (is_dir (snd item))));
      cbn [andb].
    + destruct (has_entry (snd item) STOP_AUTOMATION_FOLDER); cbn [negb].
      * rewrite IH. unfold print. cbn [map]. now rewrite <- app_assoc.
      * apply IH.
    + apply IH.
Qed.

Lemma kept_children_distinct (root_dir : Path) (listing : list (string * node)) :
  unique_names listing ->
  NoDup (map (fun item => root_dir // fst item) (filter (kept root_dir) listing)).
Proof.
  unfold unique_names. induction listing as [|item listing IH]; cbn [map filter].
  - constructor.
  - intros Huniq. inversion Huniq as [|? ? Hfresh Huniq']; subst.
    destruct (kept root_dir item); [|now apply IH].
    cbn [map]. constructor; [|now apply IH].
    intros Hin. apply in_map_iff in Hin. destruct Hin as [item' [Hpath Hin']].
    apply joinpath_inj in Hpath. apply filter_In in Hin'. destruct Hin' as [Hin' _].
    apply Hfresh. rewrite <- Hpath. now apply in_map.
Qed.

(** X5. Whatever the root: every discovered folder is an immediate child
    directory of the root, listed by [os.scandir], that is named in neither
    ignore list and holds no entry named like the stop marker; regular files
    and deeper directories are never returned, and when the listing has no
    repeated name neither has the result. *)
Theorem discovered_are_child_directories (fs : FS) (root_dir : Path) (out : Log) :
  (forall p, In p (fst (find_project_folders fs root_dir out)) ->
     exists child entries,
       p = root_dir // child
       /\ In (child, Dir entries) (scandir fs root_dir)
       /\ ~ In child IGNORE_FOLDERS
       /\ ~ In child IGNORE_FILES
       /\ has_entry (Dir entries) STOP_AUTOMATION_FOLDER = false)
  /\ (unique_names (scandir fs root_dir) ->
      NoDup (fst (find_project_folders fs root_dir out))).
Proof.
  rewrite find_project_folders_filter. split.
  - intros p Hp. apply in_map_iff in Hp. destruct Hp as [[child n] [<- Hitem]].
    apply filter_In in Hitem. destruct Hitem as [Hin Hkept].
    unfold kept in Hkept. cbn [fst snd] in *.
    apply andb_prop in Hkept. destruct Hkept as [Hkept Hstop].
    apply andb_prop in Hkept. destruct Hkept as [Hdir Hign].
    destruct n as [sz rd | entries]; [discriminate|].
    apply negb_true_iff in Hign, Hstop.
    apply should_ignore_false in Hign. destruct Hign as [Hfolders [Hfiles _]].
    rewrite name_joinpath in Hfolders, Hfiles.
    exists child, entries. repeat split; try assumption.
    + intros Hbad. apply str_in_In in Hbad. congruence.
    + intros Hbad. apply str_in_In in Hbad. congruence.
  - apply kept_children_distinct.
Qed.

Lemma discovered_are_child_directories_witness :
  NoDup (fst (find_project_folders two_projects_fs ["/"; "repo"] [])).
Proof.
  apply (proj2 (discovered_are_child_directories two_projects_fs ["/"; "repo"] [])).
  unfold unique_names. change (NoDup [".git"; "good_project"; "docs"; "notes.txt"]).
  repeat constructor; cbn; intuition discriminate.
Defined.

(** X6. The discoverer prints one line for each child directory that passes
    the ignore test and holds an entry named like the stop marker, in listing
    order, and nothing else: ignored folders and regular files are passed
    over silently. *)
Theorem discoverer_diagnostics (fs : FS) (root_dir : Path) (out : Log) :
  snd (find_project_folders fs root_dir out)
  = out ++ map Print
             (map (skip_message root_dir)
                  (filter (stopped root_dir) (scandir fs root_dir))).
Proof.
  unfold find_project_folders. apply find_project_folders_log_loop.
Qed.

(** * Further properties of the prompt *)

Lemma add_files_prefix (file_contents : dict) (out : Log) :
  exists k,
    fst (add_files file_contents out)
    = base_prompt +:+ blocks (firstn k file_contents)
    /\ (snd (add_files file_contents out) = out
        \/ exists file_path, snd (add_files file_contents out)
                             = print (skip_warning file_path) out).
Proof.
  unfold add_files.
  destruct (add_files_loop file_contents base_prompt out base_prompt_fits)
    as [[_ ->] | [k [item [_ [_ [_ ->]]]]]].
  - exists (List.length file_contents). rewrite firstn_all. split; [reflexivity | now left].
  - exists k. split; [reflexivity | right; now exists (fst item)].
Qed.

(** X7. When the map is not empty and the preamble with every block stays
    within the cap, the prompt is the preamble followed by the blocks of all
    entries, in iteration order, with no notice appended and nothing
    printed. *)
Theorem prompt_with_every_file (file_contents : dict) (out : Log) :
  file_contents <> [] ->
  len base_prompt + formatted_size file_contents <= MAX_CONTENT_LENGTH ->
  build_prompt file_contents out = (base_prompt +:+ blocks file_contents, out).
Proof.
  intros Hfiles Hfit. unfold build_prompt, add_files.
  destruct (add_files_loop file_contents base_prompt out base_prompt_fits)
    as [[_ ->] | [k [item [Hk [_ [Hover _]]]]]].
  - f_equal. unfold add_notice. fold (formatted_size file_contents).
    rewrite len_append, len_blocks.
    assert (Hpos : 0 < formatted_size file_contents).
    { destruct file_contents as [|item l]; [congruence|].
      rewrite formatted_size_cons, len_file_block.
      pose proof (formatted_size_nonneg l).
      pose proof (len_nonneg (fst item)). pose proof (len_nonneg (snd item)). lia. }
    replace (len base_prompt + formatted_size file_contents =? len base_prompt)
      with false by (symmetry; apply Z.eqb_neq; lia).
    replace (len base_prompt + formatted_size file_contents
             <? formatted_size file_contents + len base_prompt)
      with false by (symmetry; apply Z.ltb_ge; lia).
    reflexivity.
  - pose proof (formatted_size_split _ _ _ Hk). lia.
Qed.

Lemma prompt_with_every_file_witness :
  build_prompt [("/repo/good_project/app.py", "print(1)")] []
  = (base_prompt +:+ blocks [("/repo/good_project/app.py", "print(1)")], []).
Proof.
  apply (prompt_with_every_file [("/repo/good_project/app.py", "print(1)")] []).
  - discriminate.
  - vm_compute. discriminate.
Defined.

(** X8. The prompt handed to the service is never longer than the cap plus
    the length of the notice that some files were skipped, 30,078 characters
    in all. *)
Theorem submitted_prompt_bound (file_contents : dict) (out : Log) :
  len (fst (build_prompt file_contents out))
  <= MAX_CONTENT_LENGTH + len skipped_notice.
Proof.
  unfold build_prompt. pose proof (add_files_within_cap file_contents out) as Hcap.
  destruct (add_files file_contents out) as [prompt out']. cbn [fst] in *.
  unfold add_notice. fold (formatted_size file_contents).
  change (len skipped_notice) with 78.
  destruct (len prompt =? len base_prompt) eqn:Heq.
  - apply Z.eqb_eq in Heq. rewrite len_append, Heq.
    change (len base_prompt) with 825. change (len no_content_notice) with 104.
    unfold MAX_CONTENT_LENGTH. lia.
  - destruct (len prompt <? formatted_size file_contents + len base_prompt).
    + rewrite len_append. change (len skipped_notice) with 78. lia.
    + lia.
Qed.

(** X9. Whatever the map, the prompt handed to the service starts with the
    instructional preamble, followed by the blocks of a prefix of the map's
    entries in iteration order. *)
Theorem prompt_starts_with_preamble (file_contents : dict) (out : Log) :
  exists k notice,
    fst (build_prompt file_contents out)
    = (base_prompt +:+ blocks (firstn k file_contents)) +:+ notice
    /\ (notice = EmptyString \/ notice = no_content_notice
        \/ notice = skipped_notice).
Proof.
  unfold build_prompt.
  destruct (add_files_prefix file_contents out) as [k [Hprompt _]].
  destruct (add_files file_contents out) as [prompt out']. cbn [fst] in *.
  subst prompt. exists k. unfold add_notice.
  destruct (_ =? _).
  - exists no_content_notice. split; [reflexivity | right; now left].
  - destruct (_ <? _).
    + exists skipped_notice. split; [reflexivity | right; now right].
    + exists EmptyString. rewrite append_empty_r. split; [reflexivity | now left].
Qed.

(** * Further properties of the generator client *)

Lemma count_calls_app (a b : Log) :
  count_calls (a ++ b) = (count_calls a + count_calls b)%nat.
Proof. unfold count_calls. now rewrite filter_app, length_app. Qed.

Lemma written_paths_app (a b : Log) :
  written_paths (a ++ b) = written_paths a ++ written_paths b.
Proof. unfold written_paths. apply flat_map_app. Qed.

Lemma count_calls_prints (msgs : list string) : count_calls (map Print msgs) = 0%nat.
Proof. induction msgs as [|m msgs IH]; [reflexivity | exact IH]. Qed.

Lemma written_paths_prints (msgs : list string) : written_paths (map Print msgs) = [].
Proof. induction msgs as [|m msgs IH]; [reflexivity | exact IH]. Qed.

Lemma build_prompt_log (file_contents : dict) (out : Log) :
  exists msgs, snd (build_prompt file_contents out) = out ++ map Print msgs.
Proof.
  unfold build_prompt.
  destruct (add_files_prefix file_contents out) as [k [_ Hlog]].
  destruct (add_files file_contents out) as [prompt out']. cbn [snd] in *.
  destruct Hlog as [-> | [file_path ->]].
  - exists []. cbn. now rewrite app_nil_r.
  - now exists [skip_warning file_path].
Qed.

(** The events one run of the client adds to the log. *)
Lemma generate_readme_log (env : Env) (file_contents : dict) (out : Log) :
  exists before after,
    snd (generate_readme_with_gemini env file_contents out)
    = out ++ map Print before
          ++ match env_model env out with
             | Some _ => []
             | None => [GenerateContent (fst (build_prompt file_contents out))]
             end
          ++ map Print after.
Proof.
  unfold generate_readme_with_gemini, generate_readme_try.
  destruct (env_model env out) as [[e | d]|].
  - exists [], ["Error generating README with Gemini: " +:+ str_of_exc e]. reflexivity.
  - exists [], []. cbn. now rewrite app_nil_r.
  - destruct (build_prompt_log file_contents out) as [msgs Hlog].
    destruct (build_prompt file_contents out) as [prompt out1]. cbn [fst snd] in *.
    subst out1. exists msgs.
    destruct (env_generate env _ prompt) as [text | [e | d]].
    + destruct (String.eqb text EmptyString).
      * exists ["Gemini API returned an empty response even after prompt truncation."].
        unfold print. now rewrite <- !app_assoc.
      * exists []. cbn [map]. now rewrite app_nil_r, <- app_assoc.
    + exists ["Error generating README with Gemini: " +:+ str_of_exc e].
      unfold print. now rewrite <- !app_assoc.
    + exists []. cbn [map]. now rewrite app_nil_r, <- app_assoc.
Qed.

(** X10. The client never returns an empty document: what it returns is
    either the non-empty text the service answered or a document that starts
    with the error heading. *)
Theorem generated_readme_is_never_empty (env : Env) (file_contents : dict)
    (out : Log) (readme : string) :
  fst (generate_readme_with_gemini env file_contents out) = Returns readme ->
  readme <> EmptyString
  /\ (startswith readme "# Error Generating README" = true
      \/ exists log, env_generate env log (fst (build_prompt file_contents out))
                     = Returns readme).
Proof.
  unfold generate_readme_with_gemini, generate_readme_try.
  destruct (env_model env out) as [[e | d]|].
  - cbn [fst]. intros [= <-]. split; [discriminate | left; apply error_document_heading].
  - discriminate.
  - destruct (build_prompt file_contents out) as [prompt out1]. cbn [fst].
    destruct (env_generate env (out1 ++ [GenerateContent prompt]) prompt)
      as [text | [e | d]] eqn:Hgen.
    + destruct (String.eqb text EmptyString) eqn:Hempty; cbn [fst]; intros [= <-].
      * split; [discriminate | left; apply error_document_heading].
      * apply String.eqb_neq in Hempty. split; [assumption|].
        right. now exists (out1 ++ [GenerateContent prompt]).
    + cbn [fst]. intros [= <-].
      split; [discriminate | left; apply error_document_heading].
    + discriminate.
Qed.

Lemma generated_readme_is_never_empty_witness :
  "# Title" <> EmptyString
  /\ (startswith "# Title" "# Error Generating README" = true
      \/ exists log,
           env_generate ok_env log
             (fst (build_prompt [("/repo/good_project/app.py", "print(1)")] []))
           = Returns "# Title").
Proof.
  apply (generated_readme_is_never_empty ok_env
           [("/repo/good_project/app.py", "print(1)")] [] "# Title").
  reflexivity.
Defined.

(** X11. One run of the client calls the service at most once: exactly once,
    with the assembled prompt, when the model could be constructed, and not
    at all when its construction raised; the client itself writes no file. *)
Theorem one_generation_attempt (env : Env) (file_contents : dict) (out : Log) :
  let log := snd (generate_readme_with_gemini env file_contents out) in
  count_calls log
  = (count_calls out
     + match env_model env out with Some _ => 0 | None => 1 end)%nat
  /\ written_paths log = written_paths out
  /\ (env_model env out = None ->
      In (GenerateContent (fst (build_prompt file_contents out))) log).
Proof.
  cbv zeta.
  destruct (generate_readme_log env file_contents out) as [before [after ->]].
  rewrite !count_calls_app, !written_paths_app, !count_calls_prints,
    !written_paths_prints.
  destruct (env_model env out) as [b|]; cbn [app].
  - split; [cbn; lia | split; [now rewrite app_nil_r | discriminate]].
  - split; [cbn; lia | split; [cbn; now rewrite app_nil_r|]].
    intros _. apply in_or_app. right. apply in_or_app. right. now left.
Qed.

Lemma one_generation_attempt_witness :
  In (GenerateContent
        (fst (build_prompt [("/repo/good_project/app.py", "print(1)")] [])))
     (snd (generate_readme_with_gemini failing_env
             [("/repo/good_project/app.py", "print(1)")] [])).
Proof.
  apply (proj2 (proj2 (one_generation_attempt failing_env
                         [("/repo/good_project/app.py", "print(1)")] []))).
  reflexivity.
Defined.

(** X12. When the service answers with an empty text, the client returns the
    error document that reports the empty response together with the length
    of the prompt it sent, and prints a line saying so. *)
Theorem empty_response_yields_error_document (env : Env) (file_contents : dict)
    (out : Log) :
  let assembled := build_prompt file_contents out in
  let asked := snd assembled ++ [GenerateContent (fst assembled)] in
  let readme :=
    error_document
      ("Received empty response from Gemini API. Prompt length: "
       +:+ str_of_int (len (fst assembled))) in
  env_model env out = None ->
  env_generate env asked (fst assembled) = Returns EmptyString ->
  generate_readme_with_gemini env file_contents out
  = (Returns readme,
     print "Gemini API returned an empty response even after prompt truncation."
           asked)
  /\ first_line readme = "# Error Generating README".
Proof.
  intros assembled asked readme Hmodel Hgen. split; [|reflexivity].
  unfold generate_readme_with_gemini, generate_readme_try. rewrite Hmodel.
  subst readme asked assembled.
  destruct (build_prompt file_contents out) as [prompt out1]. cbn [fst snd] in *.
  rewrite Hgen. reflexivity.
Qed.

Lemma empty_response_yields_error_document_witness :
  fst (generate_readme_with_gemini empty_env
         [("/repo/good_project/app.py", "print(1)")] [])
  = Returns
      (error_document "Received empty response from Gemini API. Prompt length: 877").
Proof.
  rewrite (proj1 (empty_response_yields_error_document empty_env
                    [("/repo/good_project/app.py", "print(1)")] []
                    eq_refl eq_refl)).
  reflexivity.
Defined.

(** * Further properties of the batch *)

Lemma written_paths_In (log : Log) (q : Path) (content : string) :
  In (WriteFile q content) log -> In q (written_paths log).
Proof.
  intros Hin. unfold written_paths. apply in_flat_map.
  exists (WriteFile q content). split; [assumption | now left].
Qed.

(** The client raises only in an environment that raises something outside
    [Exception]. *)
Lemma generate_readme_raises (env : Env) (file_contents : dict) (out : Log)
    (b : BaseException) :
  fst (generate_readme_with_gemini env file_contents out) = Raises b ->
  ~ uninterrupted env.
Proof.
  unfold generate_readme_with_gemini, generate_readme_try.
  destruct (env_model env out) as [[e | d]|] eqn:Hmodel.
  - discriminate.
  - intros _ [Hnever _]. exact (Hnever out d Hmodel).
  - destruct (build_prompt file_contents out) as [prompt out1].
    destruct (env_generate env (out1 ++ [GenerateContent prompt]) prompt)
      as [text | [e | d]] eqn:Hgen.
    + destruct (String.eqb text EmptyString); discriminate.
    + discriminate.
    + intros _ [_ Hnever]. exact (Hnever _ _ d Hgen).
Qed.

Lemma generate_readme_nonempty (env : Env) (file_contents : dict) (out : Log)
    (readme : string) :
  fst (generate_readme_with_gemini env file_contents out) = Returns readme ->
  readme <> EmptyString.
Proof.
  unfold generate_readme_with_gemini, generate_readme_try.
  destruct (env_model env out) as [[e | d]|].
  - cbn [fst]. intros [= <-]. discriminate.
  - discriminate.
  - destruct (build_prompt file_contents out) as [prompt out1].
    destruct (env_generate env (out1 ++ [GenerateContent prompt]) prompt)
      as [text | [e | d]].
    + destruct (String.eqb text EmptyString) eqn:Hempty; cbn [fst]; intros [= <-].
      * discriminate.
      * now apply String.eqb_neq in Hempty.
    + cbn [fst]. intros [= <-]. discriminate.
    + discriminate.
Qed.

(** The events the pass over one project folder adds to the log: its
    progress line and diagnostics, at most one call to the service, and at
    most one write, of the README of that folder.  The pass ends the loop
    only when something outside [Exception] is raised. *)
Lemma main_body_shape (env : Env) (fs : FS) (project_folder : Path) (out : Log) :
  exists m1 calls m2 writes m3,
    let log := out ++ map Print (processing_line project_folder :: m1)
                   ++ calls ++ map Print m2 ++ writes ++ map Print m3 in
    (main_body env fs project_folder out = Next log
     \/ (main_body env fs project_folder out = Break log /\ ~ uninterrupted env))
    /\ (calls = [] \/ exists prompt, calls = [GenerateContent prompt])
    /\ (writes = []
        \/ exists content, writes = [WriteFile (project_folder // "README.md") content]).
Proof.
  unfold main_body. fold (processing_line project_folder).
  pose proof (read_project_files_only_prints (env_guess_type env) fs project_folder
                (print (processing_line project_folder) out)) as [m1 Hlog].
  destruct (read_project_files _ _ _ _) as [file_contents out1].
  cbn [snd] in Hlog. subst out1.
  destruct file_contents as [|entry file_contents].
  - exists m1, [], [], [],
      ["No relevant files found in " +:+ str_of_path project_folder
       +:+ ". Skipping README generation."].
    split; [|split; now left].
    left. f_equal. unfold print. cbn [map app]. now rewrite <- !app_assoc.
  - set (log1 := print (processing_line project_folder) out ++ map Print m1).
    destruct (generate_readme_log env (entry :: file_contents) log1)
      as [before [after Hgen]].
    pose proof (generate_readme_raises env (entry :: file_contents) log1) as Hraises.
    destruct (generate_readme_with_gemini env (entry :: file_contents) log1)
      as [result out2].
    cbn [fst snd] in Hgen, Hraises. subst out2.
    exists (m1 ++ before),
      (match env_model env log1 with
       | Some _ => []
       | None => [GenerateContent (fst (build_prompt (entry :: file_contents) log1))]
       end).
    assert (Hcalls :
              match env_model env log1 with
              | Some _ => []
              | None => [GenerateContent
                           (fst (build_prompt (entry :: file_contents) log1))]
              end = []
              \/ exists prompt,
                  match env_model env log1 with
                  | Some _ => []
                  | None => [GenerateContent
                               (fst (build_prompt (entry :: file_contents) log1))]
                  end = [GenerateContent prompt]).
    { destruct (env_model env log1); [now left | right; eexists; reflexivity]. }
    destruct result as [readme | b].
    + unfold save_readme.
      set (log2 := log1 ++ map Print before ++ _ ++ map Print after).
      destruct (env_write env log2 (project_folder // "README.md") readme) as [e|].
      * exists after, [],
          ["Error saving README.md to " +:+ str_of_path project_folder +:+ ": "
           +:+ str_of_exc e].
        split; [|split; [exact Hcalls | now left]].
        left. f_equal. subst log2 log1. unfold print.
        destruct (env_model env _); cbn [map app];
          rewrite ?map_app, <- ?app_assoc; cbn [app]; rewrite ?app_nil_r;
          reflexivity.
      * exists after, [WriteFile (project_folder // "README.md") readme],
          ["README.md generated successfully in " +:+ str_of_path project_folder].
        split; [|split; [exact Hcalls | right; now exists readme]].
        left. f_equal. subst log2 log1. unfold print.
        destruct (env_model env _); cbn [map app];
          rewrite ?map_app, <- ?app_assoc; cbn [app map]; rewrite ?app_nil_r;
          reflexivity.
    + exists after, [], [].
      split; [|split; [exact Hcalls | now left]].
      right. split; [|exact (Hraises b eq_refl)].
      f_equal. subst log1. unfold print.
      destruct (env_model env _); cbn [map app];
        rewrite ?map_app, <- ?app_assoc; cbn [app]; rewrite ?app_nil_r;
        reflexivity.
Qed.

Lemma main_body_segment (env : Env) (fs : FS) (project_folder : Path) (out : Log) :
  exists segment,
    folder_segment project_folder segment
    /\ (main_body env fs project_folder out = Next (out ++ segment)
        \/ (main_body env fs project_folder out = Break (out ++ segment)
            /\ ~ uninterrupted env)).
Proof.
  destruct (main_body_shape env fs project_folder out)
    as [m1 [calls [m2 [writes [m3 [Hbody [Hcalls Hwrites]]]]]]].
  cbv zeta in Hbody. eexists. split; [|exact Hbody].
  unfold folder_segment. split; [eexists; reflexivity|].
  rewrite !count_calls_app, !written_paths_app, !count_calls_prints,
    !written_paths_prints.
  destruct Hcalls as [-> | [prompt ->]], Hwrites as [-> | [content ->]];
    cbn; (split; [lia | split; [lia|]]); intros q Hq;
    try contradiction; destruct Hq as [<- | []]; reflexivity.
Qed.

(** The log of the loop over the project folders: one segment after the
    other, for the folders up to the one where the loop ends. *)
Lemma main_loop_segments (env : Env) (fs : FS) (project_folders : list Path)
    (out : Log) :
  exists segments,
    for_in project_folders (main_body env fs) out = out ++ List.concat segments
    /\ Forall2 folder_segment
         (firstn (List.length segments) project_folders) segments
    /\ (uninterrupted env -> List.length segments = List.length project_folders).
Proof.
  revert out. induction project_folders as [|p rest IH]; intros out.
  - exists []. cbn. rewrite app_nil_r. repeat split. constructor.
  - destruct (main_body_segment env fs p out)
      as [segment [Hseg [Hnext | [Hbreak Hint]]]].
    + destruct (IH (out ++ segment)) as [segments [Hrest [Hall Hlen]]].
      exists (segment :: segments). cbn [for_in]. rewrite Hnext, Hrest.
      cbn [List.concat List.length firstn]. rewrite <- app_assoc.
      split; [reflexivity | split; [now constructor|]].
      intros Hun. now rewrite (Hlen Hun).
    + exists [segment]. cbn [for_in]. rewrite Hbreak.
      cbn [List.concat List.length firstn]. rewrite app_nil_r.
      split; [reflexivity | split; [|now intros Hun]].
      constructor; [assumption | constructor].
Qed.

Lemma firstn_subset {A : Type} (n : nat) (l : list A) (x : A) :
  In x (firstn n l) -> In x l.
Proof.
  intros Hin. rewrite <- (firstn_skipn n l). apply in_or_app. now left.
Qed.

Lemma segments_written (project_folders : list Path) (segments : list Log)
    (q : Path) :
  Forall2 folder_segment project_folders segments ->
  In q (written_paths (List.concat segments)) ->
  exists p, In p project_folders /\ q = p // "README.md".
Proof.
  induction 1 as [|p segment ps segs Hseg _ IH]; cbn [List.concat]; [intros []|].
  rewrite written_paths_app. intros Hq. apply in_app_or in Hq.
  destruct Hq as [Hq | Hq].
  - exists p. split; [now left|]. destruct Hseg as [_ [_ [_ Hw]]]. now apply Hw.
  - destruct (IH Hq) as [p' [Hin ->]]. exists p'. split; [now right | reflexivity].
Qed.

Lemma segments_processing_lines (project_folders : list Path)
    (segments : list Log) (p : Path) :
  Forall2 folder_segment project_folders segments ->
  In p project_folders ->
  In (Print (processing_line p)) (List.concat segments).
Proof.
  induction 1 as [|p0 segment ps segs Hseg _ IH]; cbn [List.concat]; [intros []|].
  intros [<- | Hin]; apply in_or_app.
  - left. destruct Hseg as [[rest ->] _]. now left.
  - right. now apply IH.
Qed.

(** The log of a run, by the two ways [main] can go. *)
Lemma main_log (env : Env) (fs : FS) :
  let found := find_project_folders fs (fs_root fs) [] in
  main env fs
  = match fst found with
    | [] => print "No valid project folders found." (snd found)
    | _ :: _ => for_in (fst found) (main_body env fs) (snd found)
    end.
Proof.
  unfold main. now destruct (find_project_folders fs (fs_root fs) []).
Qed.

Lemma discoverer_log_prints (fs : FS) (root_dir : Path) :
  exists msgs, snd (find_project_folders fs root_dir []) = map Print msgs.
Proof.
  eexists. unfold find_project_folders.
  rewrite find_project_folders_log_loop. reflexivity.
Qed.

(** X13. A run writes nothing but the file [README.md] directly inside a
    discovered project folder. *)
Theorem main_writes_only_readmes (env : Env) (fs : FS) (q : Path)
    (content : string) :
  In (WriteFile q content) (main env fs) ->
  exists project_folder,
    In project_folder (fst (find_project_folders fs (fs_root fs) []))
    /\ q = project_folder // "README.md".
Proof.
  intros Hin. apply written_paths_In in Hin. rewrite main_log in Hin.
  destruct (discoverer_log_prints fs (fs_root fs)) as [msgs Hlog].
  destruct (fst (find_project_folders fs (fs_root fs) [])) as [|p rest] eqn:Hfound.
  - rewrite Hlog in Hin. unfold print in Hin.
    change (map Print msgs ++ [Print "No valid project folders found."])
      with (map Print msgs ++ map Print ["No valid project folders found."]) in Hin.
    rewrite <- map_app, written_paths_prints in Hin. contradiction.
  - destruct (main_loop_segments env fs (p :: rest)
                (snd (find_project_folders fs (fs_root fs) [])))
      as [segments [Hrun [Hall _]]].
    rewrite Hrun, Hlog, written_paths_app, written_paths_prints in Hin.
    destruct (segments_written _ _ _ Hall Hin) as [p' [Hp' ->]].
    exists p'. split; [|reflexivity].
    exact (firstn_subset _ _ _ Hp').
Qed.

Lemma main_writes_only_readmes_witness :
  exists project_folder,
    In project_folder (fst (find_project_folders two_projects_fs ["/"; "repo"] []))
    /\ ["/"; "repo"; "good_project"; "README.md"] = project_folder // "README.md".
Proof.
  apply (main_writes_only_readmes ok_env two_projects_fs
           ["/"; "repo"; "good_project"; "README.md"] "# Title").
  vm_compute. right. right. left. reflexivity.
Defined.

(** X14. In a run where nothing outside [Exception] is raised, every
    discovered project folder is processed: its progress line is in the log
    of the run, whatever happens to the folders before it (unreadable files,
    a failing service, a README that cannot be written). *)
Theorem main_processes_every_folder (env : Env) (fs : FS) (project_folder : Path) :
  uninterrupted env ->
  In project_folder (fst (find_project_folders fs (fs_root fs) [])) ->
  In (Print ("Processing folder: " +:+ str_of_path project_folder)) (main env fs).
Proof.
  intros Hun Hin. rewrite main_log.
  destruct (fst (find_project_folders fs (fs_root fs) [])) as [|p rest] eqn:Hfound;
    [contradiction|].
  destruct (main_loop_segments env fs (p :: rest)
              (snd (find_project_folders fs (fs_root fs) [])))
    as [segments [Hrun [Hall Hlen]]].
  rewrite Hrun, (Hlen Hun), firstn_all in *. apply in_or_app. right.
  exact (segments_processing_lines _ _ _ Hall Hin).
Qed.

Lemma failing_env_uninterrupted : uninterrupted failing_env.
Proof. split; intros; discriminate. Qed.

Lemma main_processes_every_folder_witness :
  In (Print "Processing folder: /repo/docs") (main failing_env two_projects_fs).
Proof.
  apply (main_processes_every_folder failing_env two_projects_fs
           ["/"; "repo"; "docs"] failing_env_uninterrupted).
  vm_compute. right. left. reflexivity.
Defined.

(** X15. When no project folder is discovered, the run ends after the
    discoverer's diagnostics with the line "No valid project folders found.":
    the service is not called and nothing is written. *)
Theorem main_without_project_folders (env : Env) (fs : FS) :
  fst (find_project_folders fs (fs_root fs) []) = [] ->
  main env fs
  = snd (find_project_folders fs (fs_root fs) [])
      ++ [Print "No valid project folders found."]
  /\ count_calls (main env fs) = 0%nat
  /\ written_paths (main env fs) = [].
Proof.
  intros Hnone. rewrite main_log, Hnone.
  destruct (discoverer_log_prints fs (fs_root fs)) as [msgs Hlog].
  rewrite Hlog. unfold print.
  change (map Print msgs ++ [Print "No valid project folders found."])
    with (map Print msgs ++ map Print ["No valid project folders found."]).
  rewrite <- map_app, count_calls_prints, written_paths_prints.
  repeat split.
Qed.

Lemma main_without_project_folders_witness :
  main ok_env marker_file_fs
  = snd (find_project_folders marker_file_fs ["/"; "repo"] [])
      ++ [Print "No valid project folders found."].
Proof.
  apply (proj1 (main_without_project_folders ok_env marker_file_fs eq_refl)).
Defined.

(** X16. The log of a run is the discoverer's diagnostics followed by one
    segment per processed project folder, in discovery order: each segment
    starts with the progress line of its folder and holds at most one call
    to the generation service and at most one write, of the README of that
    folder.  There is no retry.  Every discovered folder has its segment
    when nothing outside [Exception] is raised. *)
Theorem main_one_attempt_per_folder (env : Env) (fs : FS) :
  let found := find_project_folders fs (fs_root fs) [] in
  exists segments,
    Forall2 folder_segment (firstn (List.length segments) (fst found)) segments
    /\ main env fs
       = snd found ++ List.concat segments
           ++ match fst found with
              | [] => [Print "No valid project folders found."]
              | _ :: _ => []
              end
    /\ (uninterrupted env -> List.length segments = List.length (fst found)).
Proof.
  cbv zeta. rewrite main_log. cbv zeta.
  destruct (fst (find_project_folders fs (fs_root fs) [])) as [|p rest] eqn:Hfound.
  - exists []. cbn. repeat split. constructor.
  - destruct (main_loop_segments env fs (p :: rest)
                (snd (find_project_folders fs (fs_root fs) [])))
      as [segments [Hrun [Hall Hlen]]].
    exists segments. rewrite Hrun, app_nil_r. repeat split; assumption.
Qed.

Lemma main_one_attempt_per_folder_witness :
  exists segments,
    Forall2 folder_segment
      (firstn (List.length segments)
         (fst (find_project_folders two_projects_fs ["/"; "repo"] [])))
      segments
    /\ List.length segments
       = List.length (fst (find_project_folders two_projects_fs ["/"; "repo"] [])).
Proof.
  destruct (main_one_attempt_per_folder failing_env two_projects_fs)
    as [segments [Hall [_ Hlen]]].
  exists segments. split; [exact Hall | exact (Hlen failing_env_uninterrupted)].
Defined.

(** X17. In an environment where nothing outside [Exception] is raised, a
    project folder for which the collector returns at least one entry gets a
    README whenever the file can be written: the pass over the folder
    records the write of a non-empty document to [README.md] in that folder,
    be it the service's text or an error document. *)
Theorem collected_folder_gets_readme (env : Env) (fs : FS) (project_folder : Path)
    (out : Log) :
  uninterrupted env ->
  fst (read_project_files (env_guess_type env) fs project_folder
         (print ("Processing folder: " +:+ str_of_path project_folder) out))
  <> [] ->
  (forall log content,
      env_write env log (project_folder // "README.md") content = None) ->
  exists readme,
    readme <> EmptyString
    /\ In (WriteFile (project_folder // "README.md") readme)
          (ctl_state (main_body env fs project_folder out)).
Proof.
  intros Hun Hfiles Hwrite. unfold main_body.
  destruct (read_project_files _ _ _ _) as [[|entry file_contents] out1];
    [now contradiction Hfiles|].
  pose proof (generate_readme_nonempty env (entry :: file_contents) out1) as Hne.
  pose proof (generate_readme_raises env (entry :: file_contents) out1) as Hraises.
  destruct (generate_readme_with_gemini env (entry :: file_contents) out1)
    as [[readme | b] out2]; cbn [fst] in *.
  - exists readme. split; [exact (Hne readme eq_refl)|].
    cbn [ctl_state]. unfold save_readme. rewrite Hwrite. unfold print.
    apply in_or_app. left. apply in_or_app. right. now left.
  - now contradiction (Hraises b eq_refl).
Qed.

Lemma collected_folder_gets_readme_witness :
  exists readme,
    readme <> EmptyString
    /\ In (WriteFile ["/"; "repo"; "good_project"; "README.md"] readme)
          (ctl_state (main_body failing_env two_projects_fs
                        ["/"; "repo"; "good_project"] [])).
Proof.
  apply (collected_folder_gets_readme failing_env two_projects_fs
           ["/"; "repo"; "good_project"] [] failing_env_uninterrupted).
  - discriminate.
  - reflexivity.
Defined.

(** * The order of the collected map *)

Lemma dict_get_app (d l : dict) (k : string) :
  dict_get (d ++ l) k
  = match dict_get d k with
    | Some v => Some v
    | None => dict_get l k
    end.
Proof.
  induction d as [|[k' v'] d IH]; [reflexivity|].
  cbn [app dict_get]. now destruct (String.eqb k' k).
Qed.

Lemma dict_set_fresh (k v : string) (d : dict) :
  dict_get d k = None -> dict_set k v d = d ++ [(k, v)].
Proof.
  induction d as [|[k' v'] d IH]; [reflexivity|].
  cbn [dict_get dict_set app]. destruct (String.eqb k' k); [discriminate|].
  intros Hnone. now rewrite IH.
Qed.

Lemma fold_store_fresh (files : list (Path * (Z * result string))) (d : dict) :
  unique_paths files ->
  (forall file, In file files -> dict_get d (str_of_path (fst file)) = None) ->
  fold_left store files d = d ++ flat_map entry_of files.
Proof.
  unfold unique_paths. revert d.
  induction files as [|file files IH]; intros d Huniq Hfresh.
  - cbn. now rewrite app_nil_r.
  - cbn [map] in Huniq. inversion Huniq as [|? ? Hnew Huniq']; subst.
    cbn [fold_left flat_map].
    assert (Hstore : store d file = d ++ entry_of file).
    { unfold store, entry_of. destruct (stored file) as [content|].
      - apply dict_set_fresh. apply Hfresh. now left.
      - now rewrite app_nil_r. }
    rewrite Hstore, IH, <- app_assoc; [reflexivity | assumption|].
    intros file' Hin. rewrite dict_get_app, (Hfresh file' (or_intror Hin)).
    unfold entry_of. destruct (stored file) as [content|]; [|reflexivity].
    cbn [dict_get]. destruct (String.eqb_spec (str_of_path (fst file))
                                (str_of_path (fst file'))) as [Heq | _];
      [|reflexivity].
    exfalso. apply Hnew. rewrite Heq.
    now apply (in_map (fun f => str_of_path (fst f))).
Qed.

(** X18. When every considered file has a path string of its own, the map
    the collector returns lists the files it stored in the order of the
    walk: one entry per considered file that is within the size cap and
    readable, keyed by its path, and no other entry. *)
Theorem collected_map_in_walk_order (guess_type : string -> option string)
    (fs : FS) (project_folder : Path) (out : Log) :
  unique_paths (considered_files guess_type fs project_folder) ->
  fst (read_project_files guess_type fs project_folder out)
  = flat_map entry_of (considered_files guess_type fs project_folder).
Proof.
  intros Huniq. rewrite read_project_files_fold.
  rewrite (fold_store_fresh _ [] Huniq); [reflexivity|].
  intros file _. reflexivity.
Qed.

Lemma collected_map_in_walk_order_witness :
  fst (read_project_files no_guess unreadable_fs ["/"; "repo"; "proj"] [])
  = flat_map entry_of
      (considered_files no_guess unreadable_fs ["/"; "repo"; "proj"]).
Proof.
  apply (collected_map_in_walk_order no_guess unreadable_fs ["/"; "repo"; "proj"] []).
  unfold unique_paths.
  change (NoDup ["/repo/proj/notes.txt"; "/repo/proj/app.py"]).
  repeat constructor; cbn; intuition discriminate.
Defined.
